(** * Betrusted SoC control plane: a shallow embedding of [betrusted-soc.py]

    The gateware is written in Migen/LiteX.  Each [Module] class of the
    source becomes a Rocq module holding
    - a record of the registers the class declares (its state),
    - [init], the values the registers take at power-on / reset,
    - [step], one rising edge of the [sys] clock (the [sync] statements and
      the CSR bus access of that cycle),
    - the [comb] statements as pure functions of the state and the inputs.

    A cycle in which the reset of the domain is asserted loads [init];
    [step] is a cycle in which it is not.  [CRG] makes that reset, so its
    [step] covers both cases.

    Words are [Z] with their width written out; single wires are [bool]. *)

From Stdlib Require Import ZArith List Bool Lia.
From Stdlib Require String.
Import ListNotations.
Open Scope Z_scope.

(** ** Signals *)

Module Signal.

(** [v[i]] on a Migen signal. *)
Definition bit (v : Z) (i : Z) : bool := Z.testbit v i.

(** [v[lo:lo+n]] on a Migen signal. *)
Definition slice (v : Z) (lo n : Z) : Z := Z.land (Z.shiftr v lo) (Z.ones n).

(** Assignment to a signal of [n] bits keeps the low [n] bits. *)
Definition trunc (n : Z) (v : Z) : Z := v mod 2 ^ n.

Definition of_bool (b : bool) : Z := if b then 1 else 0.

End Signal.

(** ** The CSR bus

  One bus cycle either does nothing, reads one register or writes one
  register; [R] is the type of the register names of a block. *)

Inductive bus (R : Type) : Type :=
| Idle : bus R
| Rd (r : R) : bus R
| Wr (r : R) (v : Z) : bus R.

Arguments Idle {R}.
Arguments Rd {R} r.
Arguments Wr {R} r v.

(** ** LiteX CSR primitives *)

Module Csr.

(** Modelled from the spec: the classes [CSRStorage], [CSRStatus],
    [CSR] and [CSRField] come from LiteX, which is not under src/.
    The spec (sections 3, 4.1 and the register table of section 6) gives
    their contract: a storage field persists a written value until it is
    overwritten and reads it back verbatim; a status field ignores writes
    and reports what the hardware drives; a register or field declared
    without a reset value resets to 0 and one declared without a size is
    one bit wide. *)
Definition default_reset : Z := 0.
Definition default_size : Z := 1.

(** A bus write to a [CSRStorage] of [size] bits. *)
Definition storage_write (size : Z) (dat_w : Z) : Z := Signal.trunc size dat_w.

(** A bus write to a [CSRStatus]: the written data is dropped. *)
Definition status_write (status : Z) (dat_w : Z) : Z := status.

(** [CSRField(name, size=1, reset=0)]; the name is kept as the
    position in the list of fields. *)
Record CSRField : Type := mkField { f_size : Z; f_reset : Z }.

(** Fields are packed from bit 0 upwards in the order of declaration;
    the reset value of the register is the packing of the fields'
    reset values. *)
Fixpoint fields_reset (offset : Z) (fs : list CSRField) : Z :=
  match fs with
  | [] => 0
  | f :: fs' =>
      Z.lor (Z.shiftl (f_reset f) offset) (fields_reset (offset + f_size f) fs')
  end.

Fixpoint fields_size (fs : list CSRField) : Z :=
  match fs with
  | [] => 0
  | f :: fs' => f_size f + fields_size fs'
  end.

(** Offset of the [k]-th field. *)
Definition field_offset (fs : list CSRField) (k : nat) : Z :=
  fields_size (firstn k fs).

(** [storage.fields.<k-th field>]. *)
Definition field_value (fs : list CSRField) (k : nat) (storage : Z) : Z :=
  Signal.slice storage (field_offset fs k) (f_size (nth k fs (mkField 0 0))).

End Csr.

(** ** WarmBoot *)

Module WarmBoot.

Inductive reg : Type := ctrl | addr.

(** [self.ctrl = CSRStorage(size=8)],
    [self.addr = CSRStorage(size=32, reset=reset_vector)]. *)
Record state : Type := mkState { ctrl_storage : Z; addr_storage : Z }.

Definition init (reset_vector : Z) : state :=
  {| ctrl_storage := Csr.default_reset;
     addr_storage := Signal.trunc 32 reset_vector |}.

Definition step (st : state) (op : bus reg) : state :=
  match op with
  | Wr ctrl v => {| ctrl_storage := Csr.storage_write 8 v;
                    addr_storage := addr_storage st |}
  | Wr addr v => {| ctrl_storage := ctrl_storage st;
                    addr_storage := Csr.storage_write 32 v |}
  | _ => st
  end.

Definition run (st : state) (ops : list (bus reg)) : state :=
  fold_left step ops st.

Definition read (st : state) (r : reg) : Z :=
  match r with
  | ctrl => ctrl_storage st
  | addr => addr_storage st
  end.

(** The [comb] statement: "Reset Key" is 0xac (0b101011xx). *)
Definition do_reset (st : state) : bool :=
  let s := ctrl_storage st in
  Signal.bit s 2 && Signal.bit s 3 && negb (Signal.bit s 4)
  && Signal.bit s 5 && negb (Signal.bit s 6) && Signal.bit s 7.

(** The pattern of the specification, on the written byte. *)
Definition authorized (v : Z) : Prop :=
  Z.testbit v 2 = true /\ Z.testbit v 3 = true /\
  Z.testbit v 5 = true /\ Z.testbit v 7 = true /\
  Z.testbit v 4 = false /\ Z.testbit v 6 = false.

(** A bus cycle that leaves [ctrl] alone. *)
Definition holds_ctrl (op : bus reg) : Prop :=
  match op with
  | Wr ctrl _ => False
  | _ => True
  end.

End WarmBoot.

(** ** Clock-domain crossing: MultiReg *)

Module MultiReg.

(** Modelled from the spec: [MultiReg] comes from Migen
    ([migen.genlib.cdc]), which is not under src/.  The spec (sections 3
    and 4.3) describes it as a register chain of at least two stages
    clocked by the destination domain; the source instantiates it without
    a depth, which is the minimum of two.  Stage 0 samples the input and
    the last stage is the output; every stage resets to [reset]. *)
Definition n : nat := 2.

Section Chain.
Context {A : Type}.
Variable reset : A.

Definition init : list A := repeat reset n.

(** One clock edge of the destination domain. *)
Definition step (regs : list A) (i : A) : list A := i :: removelast regs.

(** The synchronized output [o]. *)
Definition o (regs : list A) : A := last regs reset.

Definition run (regs : list A) (samples : list A) : list A :=
  fold_left step samples regs.

End Chain.

End MultiReg.

(** ** Event sources *)

Module EventSourcePulse.

(** Modelled from the spec: [EventSourcePulse] comes from LiteX
    ([csr_eventmanager]), which is not under src/; the source comments it
    as "rising edge triggered".  The spec (section 4.2, policy
    [RisingPulse]) gives two states, Idle and Pending: Idle goes to
    Pending on a detected 0-to-1 transition of the trigger, Pending stays
    whatever the trigger does, and Pending goes back to Idle only on a
    software clear.  No event is dropped, so a transition that coincides
    with a clear still leaves the source Pending. *)
Record state : Type := mkState { old_trigger : bool; pending : bool }.

Definition init : state := {| old_trigger := false; pending := false |}.

Definition rising (st : state) (trigger : bool) : bool :=
  trigger && negb (old_trigger st).

Definition step (st : state) (trigger clear : bool) : state :=
  {| old_trigger := trigger;
     pending := if rising st trigger then true
                else if clear then false
                else pending st |}.

(** A run over cycles [(trigger, clear)]. *)
Definition run (st : state) (cycles : list (bool * bool)) : state :=
  fold_left (fun s c => step s (fst c) (snd c)) cycles st.

(** Number of cycles of a run at which [pending] goes from 0 to 1. *)
Fixpoint assertions (st : state) (cycles : list (bool * bool)) : nat :=
  match cycles with
  | [] => O
  | c :: rest =>
      let st' := step st (fst c) (snd c) in
      ((if negb (pending st) && pending st' then 1 else 0)
       + assertions st' rest)%nat
  end.

(** Cycles without a software clear, for a given trigger wave. *)
Definition unserviced (wave : list bool) : list (bool * bool) :=
  map (fun t => (t, false)) wave.

(** A single pulse: low for [a] cycles, high for [h], low for [b]. *)
Definition pulse (a h b : nat) : list bool :=
  repeat false a ++ repeat true h ++ repeat false b.

End EventSourcePulse.

Module EventSourceProcess.

(** Modelled from the spec: [EventSourceProcess] comes from LiteX, not
    under src/; the source comments it as "falling edge triggered".  The
    spec (section 4.2, policy [FallingLatched]) makes it identical to the
    rising policy but for the edge: it triggers on 1-to-0 transitions. *)
Record state : Type := mkState { old_trigger : bool; pending : bool }.

Definition init : state := {| old_trigger := false; pending := false |}.

Definition falling (st : state) (trigger : bool) : bool :=
  negb trigger && old_trigger st.

Definition step (st : state) (trigger clear : bool) : state :=
  {| old_trigger := trigger;
     pending := if falling st trigger then true
                else if clear then false
                else pending st |}.

End EventSourceProcess.

(** ** Reset synchronizer *)

Module AsyncResetSynchronizer.

(** Modelled from the spec: [AsyncResetSynchronizer] comes from Migen,
    not under src/.  The spec (section 7) gives its contract: while its
    input is asserted the clock domain is held in reset.  It is a chain
    of two flip-flops with an asynchronous preset wired to the input and
    initial value 1; the first samples constant 0, the second samples the
    first and drives the domain's reset. *)
Record state : Type := mkState { rst_meta : bool; rst_out : bool }.

Definition init : state := {| rst_meta := true; rst_out := true |}.

(** The asynchronous preset, in effect as long as [async_reset] is high. *)
Definition preset (st : state) (async_reset : bool) : state :=
  if async_reset then {| rst_meta := true; rst_out := true |} else st.

(** One clock edge of the domain. *)
Definition step (st : state) (async_reset : bool) : state :=
  preset {| rst_meta := false; rst_out := rst_meta st |} async_reset.

(** The reset of the domain, [cd.rst]. *)
Definition cd_rst (st : state) (async_reset : bool) : bool :=
  rst_out (preset st async_reset).

End AsyncResetSynchronizer.

(** ** CRG *)

Module CRG.

Definition slow_clock : bool := false.

Inductive reg : Type :=
| mmcm_read | mmcm_write | mmcm_drdy | mmcm_adr | mmcm_dat_w | mmcm_dat_r.

(** Outputs of the [MMCME2_ADV] instance that the class consumes. *)
Record mmcm : Type := mkMmcm { LOCKED : bool; DRDY : bool; DO : Z }.

(** [_mmcm_drdy = CSRStatus()], [_mmcm_adr = CSRStorage(7)],
    [_mmcm_dat_w = CSRStorage(16)] and the two reset synchronizers.
    [_mmcm_read] and [_mmcm_write] are plain [CSR()]s: they hold nothing
    and strobe [re] in the cycle they are written.  [_mmcm_dat_r.status]
    is the [DO] output of the instance. *)
Record state : Type := mkState {
  mmcm_drdy_status : Z;
  mmcm_adr_storage : Z;
  mmcm_dat_w_storage : Z;
  sys_sync : AsyncResetSynchronizer.state;
  spi_sync : AsyncResetSynchronizer.state
}.

Definition init : state :=
  {| mmcm_drdy_status := Csr.default_reset;
     mmcm_adr_storage := Csr.default_reset;
     mmcm_dat_w_storage := Csr.default_reset;
     sys_sync := AsyncResetSynchronizer.init;
     spi_sync := AsyncResetSynchronizer.init |}.

Definition mmcm_read_re (op : bus reg) : bool :=
  match op with Wr mmcm_read _ => true | _ => false end.

Definition mmcm_write_re (op : bus reg) : bool :=
  match op with Wr mmcm_write _ => true | _ => false end.

(** [i_DEN = self._mmcm_read.re | self._mmcm_write.re]. *)
Definition DEN (op : bus reg) : bool := mmcm_read_re op || mmcm_write_re op.

(** [rst = Signal()] has no driver. *)
Definition rst : bool := false.

(** The input of both reset synchronizers, [rst | ~pll_locked]; with
    [slow_clock] only [cd_sys] has one, on [rst]. *)
Definition async_reset (m : mmcm) : bool :=
  if slow_clock then rst else rst || negb (LOCKED m).

Definition cd_sys_rst (st : state) (m : mmcm) : bool :=
  AsyncResetSynchronizer.cd_rst (sys_sync st) (async_reset m).

Definition cd_spi_rst (st : state) (m : mmcm) : bool :=
  AsyncResetSynchronizer.cd_rst (spi_sync st) (async_reset m).

(** One edge of the [sys] clock.  If the reset of the [sys] domain is
    asserted, the registers of the domain load their reset values;
    otherwise the [sync] block on [_mmcm_drdy.status] and the bus write
    of the cycle take effect.  The synchronizer of [cd_sys] advances; the
    one of [cd_spi] has its own clock and only feels the asynchronous
    preset. *)
Definition step (st : state) (m : mmcm) (op : bus reg) : state :=
  if cd_sys_rst st m then
    {| mmcm_drdy_status := Csr.default_reset;
       mmcm_adr_storage := Csr.default_reset;
       mmcm_dat_w_storage := Csr.default_reset;
       sys_sync := AsyncResetSynchronizer.step (sys_sync st) (async_reset m);
       spi_sync := AsyncResetSynchronizer.preset (spi_sync st) (async_reset m) |}
  else
    {| mmcm_drdy_status :=
         if mmcm_read_re op || mmcm_write_re op then 0
         else if DRDY m then 1
         else match op with
              | Wr mmcm_drdy v => Csr.status_write (mmcm_drdy_status st) v
              | _ => mmcm_drdy_status st
              end;
       mmcm_adr_storage :=
         match op with
         | Wr mmcm_adr v => Csr.storage_write 7 v
         | _ => mmcm_adr_storage st
         end;
       mmcm_dat_w_storage :=
         match op with
         | Wr mmcm_dat_w v => Csr.storage_write 16 v
         | _ => mmcm_dat_w_storage st
         end;
       sys_sync := AsyncResetSynchronizer.step (sys_sync st) (async_reset m);
       spi_sync := AsyncResetSynchronizer.preset (spi_sync st) (async_reset m) |}.

(** One edge of the [spi] clock: the synchronizer of [cd_spi] advances,
    the one of [cd_sys] only feels the asynchronous preset, and no
    register of the [sys] domain changes. *)
Definition spi_step (st : state) (m : mmcm) : state :=
  {| mmcm_drdy_status := mmcm_drdy_status st;
     mmcm_adr_storage := mmcm_adr_storage st;
     mmcm_dat_w_storage := mmcm_dat_w_storage st;
     sys_sync := AsyncResetSynchronizer.preset (sys_sync st) (async_reset m);
     spi_sync := AsyncResetSynchronizer.step (spi_sync st) (async_reset m) |}.

(** The two clocks are not related: a run is any interleaving of their
    edges. *)
Inductive tick : Type :=
| SysEdge (m : mmcm) (op : bus reg)
| SpiEdge (m : mmcm).

Definition tick_step (st : state) (t : tick) : state :=
  match t with
  | SysEdge m op => step st m op
  | SpiEdge m => spi_step st m
  end.

Definition run_ticks (st : state) (ticks : list tick) : state :=
  fold_left tick_step ticks st.

(** The [sys] edges of an interleaving, in order. *)
Fixpoint sys_edges (ticks : list tick) : list (mmcm * bus reg) :=
  match ticks with
  | [] => []
  | SysEdge m op :: rest => (m, op) :: sys_edges rest
  | SpiEdge _ :: rest => sys_edges rest
  end.

(** The [sys] domain is out of reset and its synchronizer has let go. *)
Definition running (st : state) : Prop :=
  sys_sync st = AsyncResetSynchronizer.mkState false false.

(** A cycle, or a tick, in which the PLL is locked. *)
Definition locked (c : mmcm * bus reg) : Prop := LOCKED (fst c) = true.

Definition locked_tick (t : tick) : Prop :=
  match t with
  | SysEdge m _ => LOCKED m = true
  | SpiEdge m => LOCKED m = true
  end.

(** A run of [sys] edges; see [run_ticks] for the edges of both clocks. *)
Definition run (st : state) (cycles : list (mmcm * bus reg)) : state :=
  fold_left (fun s c => step s (fst c) (snd c)) cycles st.

Definition read (st : state) (m : mmcm) (r : reg) : Z :=
  match r with
  | mmcm_read | mmcm_write => 0
  | mmcm_drdy => mmcm_drdy_status st
  | mmcm_adr => mmcm_adr_storage st
  | mmcm_dat_w => mmcm_dat_w_storage st
  | mmcm_dat_r => DO m
  end.

(** A cycle in which the MMCM port reports no completion. *)
Definition no_drdy (c : mmcm * bus reg) : Prop := DRDY (fst c) = false.

End CRG.

(** ** BtEvents *)

Module BtEvents.

(** The registers of the [EventManager] submodule [ev]. *)
Inductive reg : Type := ev_status | ev_pending | ev_enable.

(** What one cycle brings: the raw pins [com] and [rtc] and the bus. *)
Record cycle : Type := mkCycle { com : bool; rtc : bool; op : bus reg }.

(** The two [MultiReg]s and the two event sources; [com_int] is source 0
    and [rtc_int] source 1 of the manager. *)
Record state : Type := mkState {
  com_sync : list bool;
  rtc_sync : list bool;
  ev_com_int : EventSourcePulse.state;
  ev_rtc_int : EventSourceProcess.state;
  ev_enable_storage : Z
}.

Definition init : state :=
  {| com_sync := MultiReg.init false;
     rtc_sync := MultiReg.init false;
     ev_com_int := EventSourcePulse.init;
     ev_rtc_int := EventSourceProcess.init;
     ev_enable_storage := Csr.default_reset |}.

(** [com_int] and [rtc_int], the outputs of the synchronizers. *)
Definition com_int (st : state) : bool := MultiReg.o false (com_sync st).
Definition rtc_int (st : state) : bool := MultiReg.o false (rtc_sync st).

(** [self.ev.com_int.trigger.eq(com_int)], [self.ev.rtc_int.trigger.eq(rtc_int)]. *)
Definition com_int_trigger (st : state) : bool := com_int st.
Definition rtc_int_trigger (st : state) : bool := rtc_int st.

(** Software clears source [k] by writing the pending register with
    bit [k] set; no other bus cycle clears. *)
Definition clear (k : Z) (o : bus reg) : bool :=
  match o with
  | Wr ev_pending v => Signal.bit v k
  | _ => false
  end.

Definition step (st : state) (c : cycle) : state :=
  {| com_sync := MultiReg.step (com_sync st) (com c);
     rtc_sync := MultiReg.step (rtc_sync st) (rtc c);
     ev_com_int :=
       EventSourcePulse.step (ev_com_int st) (com_int_trigger st) (clear 0 (op c));
     ev_rtc_int :=
       EventSourceProcess.step (ev_rtc_int st) (rtc_int_trigger st) (clear 1 (op c));
     ev_enable_storage :=
       match op c with
       | Wr ev_enable v => Csr.storage_write 2 v
       | _ => ev_enable_storage st
       end |}.

Definition run (st : state) (cycles : list cycle) : state :=
  fold_left step cycles st.

Definition pending_bits (st : state) : Z :=
  Z.lor (Signal.of_bool (EventSourcePulse.pending (ev_com_int st)))
        (Z.shiftl (Signal.of_bool (EventSourceProcess.pending (ev_rtc_int st))) 1).

Definition read (st : state) (r : reg) : Z :=
  match r with
  | ev_status => Z.shiftl (Signal.of_bool (rtc_int_trigger st)) 1
  | ev_pending => pending_bits st
  | ev_enable => ev_enable_storage st
  end.

(** The interrupt line: OR of pending and enabled. *)
Definition irq (st : state) : bool :=
  negb (Z.land (pending_bits st) (ev_enable_storage st) =? 0).

End BtEvents.

(** ** BtPower *)

Module BtPower.

Inductive reg : Type := power.

(** The fields of [self.power = CSRStorage(8, fields=[...])], in order:
    audio, self, ec_snoop, state, noisebias, noise. *)
Definition power_fields : list Csr.CSRField :=
  [ Csr.mkField Csr.default_size Csr.default_reset;   (* audio *)
    Csr.mkField Csr.default_size 1;                   (* self *)
    Csr.mkField Csr.default_size Csr.default_reset;   (* ec_snoop *)
    Csr.mkField 2 1;                                  (* state *)
    Csr.mkField Csr.default_size Csr.default_reset;   (* noisebias *)
    Csr.mkField 2 Csr.default_reset ].                (* noise *)

Definition f_audio : nat := 0.
Definition f_self : nat := 1.
Definition f_ec_snoop : nat := 2.
Definition f_state : nat := 3.
Definition f_noisebias : nat := 4.
Definition f_noise : nat := 5.

Record state : Type := mkState { power_storage : Z }.

Definition init : state :=
  {| power_storage := Csr.fields_reset 0 power_fields |}.

Definition step (st : state) (op : bus reg) : state :=
  match op with
  | Wr power v => {| power_storage := Csr.storage_write 8 v |}
  | _ => st
  end.

Definition run (st : state) (ops : list (bus reg)) : state :=
  fold_left step ops st.

Definition read (st : state) (r : reg) : Z :=
  match r with power => power_storage st end.

(** [self.power.fields.<name>]. *)
Definition field (st : state) (k : nat) : Z :=
  Csr.field_value power_fields k (power_storage st).

(** The pads driven by the [comb] block. *)
Record pads : Type := mkPads {
  audio_on : bool;
  fpga_sys_on : bool;
  allow_up5k_n : bool;
  pwr_s0 : bool;
  pwr_s1 : bool;
  noisebias_on : bool;
  noise_on : Z
}.

(** The [comb] block; [ResetSignal] is the reset of the [sys] domain. *)
Definition comb (st : state) (ResetSignal : bool) : pads :=
  {| audio_on := Signal.bit (field st f_audio) 0;
     fpga_sys_on := Signal.bit (field st f_self) 0;
     allow_up5k_n := negb (Signal.bit (field st f_ec_snoop) 0);
     pwr_s0 := Signal.bit (field st f_state) 0 && negb ResetSignal;
     pwr_s1 := Signal.bit (field st f_state) 1;
     noisebias_on := Signal.bit (field st f_noisebias) 0;
     noise_on := field st f_noise |}.

(** A bus cycle that is not a write. *)
Definition no_write (op : bus reg) : Prop :=
  match op with
  | Wr _ _ => False
  | _ => True
  end.

End BtPower.

(** ** BtGpio *)

Module BtGpio.

(** [pads.nbits]: the [gpio] resource has three pins. *)
Definition nbits : nat := 3.

Inductive reg : Type :=
| output | input | drive | intena | intpol | ev_status | ev_pending | ev_enable.

(** What one cycle brings: [gpio_in], the word of the tristate inputs
    (bit [g] is [gpio_ts.i] of pad [g]), and the bus. *)
Record cycle : Type := mkCycle { gpio_in : Z; op : bus reg }.

(** [output] and [drive] are [CSRStorage]s; [input], [intena] and
    [intpol] are [CSRStatus]es, the first driven by the [MultiReg], the
    other two by nothing; [ev] holds one [EventSourcePulse] per pin. *)
Record state : Type := mkState {
  output_storage : Z;
  drive_storage : Z;
  input_sync : list Z;
  intena_status : Z;
  intpol_status : Z;
  ev : list EventSourcePulse.state;
  ev_enable_storage : Z
}.

Definition init : state :=
  {| output_storage := Csr.default_reset;
     drive_storage := Csr.default_reset;
     input_sync := MultiReg.init Csr.default_reset;
     intena_status := Csr.default_reset;
     intpol_status := Csr.default_reset;
     ev := repeat EventSourcePulse.init nbits;
     ev_enable_storage := Csr.default_reset |}.

(** [self.input.status], the output of the [MultiReg]. *)
Definition input_status (st : state) : Z :=
  MultiReg.o Csr.default_reset (input_sync st).

(** [gpio_out.eq(self.output.storage)], [gpio_oe.eq(self.drive.storage)]. *)
Definition gpio_out (st : state) : Z := output_storage st.
Definition gpio_oe (st : state) : Z := drive_storage st.

(** [gpioint<i>.trigger.eq(self.input.status[i] ^ self.intpol.status[i])]. *)
Definition trigger (st : state) (i : nat) : bool :=
  xorb (Signal.bit (input_status st) (Z.of_nat i))
       (Signal.bit (intpol_status st) (Z.of_nat i)).

Definition clear (i : nat) (o : bus reg) : bool :=
  match o with
  | Wr ev_pending v => Signal.bit v (Z.of_nat i)
  | _ => false
  end.

Definition step (st : state) (c : cycle) : state :=
  {| output_storage :=
       match op c with
       | Wr output v => Csr.storage_write (Z.of_nat nbits) v
       | _ => output_storage st
       end;
     drive_storage :=
       match op c with
       | Wr drive v => Csr.storage_write (Z.of_nat nbits) v
       | _ => drive_storage st
       end;
     input_sync := MultiReg.step (input_sync st) (gpio_in c);
     intena_status :=
       match op c with
       | Wr intena v => Csr.status_write (intena_status st) v
       | _ => intena_status st
       end;
     intpol_status :=
       match op c with
       | Wr intpol v => Csr.status_write (intpol_status st) v
       | _ => intpol_status st
       end;
     ev :=
       map (fun i => EventSourcePulse.step
                       (nth i (ev st) EventSourcePulse.init)
                       (trigger st i) (clear i (op c)))
           (seq 0 nbits);
     ev_enable_storage :=
       match op c with
       | Wr ev_enable v => Csr.storage_write (Z.of_nat nbits) v
       | _ => ev_enable_storage st
       end |}.

Definition run (st : state) (cycles : list cycle) : state :=
  fold_left step cycles st.

Fixpoint pack (bits : list bool) : Z :=
  match bits with
  | [] => 0
  | b :: bits' => Z.lor (Signal.of_bool b) (Z.shiftl (pack bits') 1)
  end.

Definition read (st : state) (r : reg) : Z :=
  match r with
  | output => output_storage st
  | input => input_status st
  | drive => drive_storage st
  | intena => intena_status st
  | intpol => intpol_status st
  | ev_status => 0
  | ev_pending => pack (map EventSourcePulse.pending (ev st))
  | ev_enable => ev_enable_storage st
  end.

End BtGpio.

(** ** The DRP port of the MMCM, as [CRG] drives it *)

Module DRP.

(** [i_DWE = self._mmcm_write.re]. *)
Definition DWE (op : bus CRG.reg) : bool := CRG.mmcm_write_re op.

(** [i_DADDR = self._mmcm_adr.storage], [i_DI = self._mmcm_dat_w.storage]. *)
Definition DADDR (st : CRG.state) : Z := CRG.mmcm_adr_storage st.
Definition DI (st : CRG.state) : Z := CRG.mmcm_dat_w_storage st.

(** A cycle that strobes no request. *)
Definition no_request (c : CRG.mmcm * bus CRG.reg) : Prop :=
  CRG.DEN (snd c) = false.

(** A cycle that writes neither [_mmcm_adr] nor [_mmcm_dat_w]. *)
Definition keeps_operands (c : CRG.mmcm * bus CRG.reg) : Prop :=
  match snd c with
  | Wr CRG.mmcm_adr _ | Wr CRG.mmcm_dat_w _ => False
  | _ => True
  end.

End DRP.

(** ** The registers of [WarmBoot], by name *)

Module WarmBootRegs.

Definition width (r : WarmBoot.reg) : Z :=
  match r with
  | WarmBoot.ctrl => 8
  | WarmBoot.addr => 32
  end.

(** A bus cycle that does not write register [r]. *)
Definition keeps (r : WarmBoot.reg) (op : bus WarmBoot.reg) : Prop :=
  match op, r with
  | Wr WarmBoot.ctrl _, WarmBoot.ctrl => False
  | Wr WarmBoot.addr _, WarmBoot.addr => False
  | _, _ => True
  end.

End WarmBootRegs.

(** ** The tristate drivers of [BtGpio] *)

Module BtGpioPads.

(** [gpio_ts.oe.eq(gpio_oe[g])] and [gpio_ts.o.eq(gpio_out[g])] for
    the pad [g]. *)
Definition ts_oe (st : BtGpio.state) (g : nat) : bool :=
  Signal.bit (BtGpio.gpio_oe st) (Z.of_nat g).

Definition ts_o (st : BtGpio.state) (g : nat) : bool :=
  Signal.bit (BtGpio.gpio_out st) (Z.of_nat g).

(** What the block puts on pad [g]: a level when its output enable is
    set, nothing (high impedance) otherwise. *)
Definition pad (st : BtGpio.state) (g : nat) : option bool :=
  if ts_oe st g then Some (ts_o st g) else None.

(** A cycle that does not write the [drive] register. *)
Definition keeps_drive (c : BtGpio.cycle) : Prop :=
  match BtGpio.op c with
  | Wr BtGpio.drive _ => False
  | _ => True
  end.

(** A cycle that does not write the [output] register. *)
Definition keeps_output (c : BtGpio.cycle) : Prop :=
  match BtGpio.op c with
  | Wr BtGpio.output _ => False
  | _ => True
  end.

(** The event source of pin [i]. *)
Definition gpioint (st : BtGpio.state) (i : nat) : EventSourcePulse.state :=
  nth i (BtGpio.ev st) EventSourcePulse.init.

End BtGpioPads.

(** ** The interrupt line of [BtEvents] *)

Module BtEventsIrq.

(** A cycle that does not write the enable register of the manager. *)
Definition keeps_enable (c : BtEvents.cycle) : Prop :=
  match BtEvents.op c with
  | Wr BtEvents.ev_enable _ => False
  | _ => True
  end.

End BtEventsIrq.

(** ** BaseSoC: how the blocks are wired together *)

Module BaseSoC.

(** [SoCCore.mem_map], [boot_offset], [bios_size], [SPI_FLASH_SIZE]. *)
Definition mem_map_rom : Z := 0x00000000.
Definition mem_map_sram : Z := 0x10000000.
Definition mem_map_spiflash : Z := 0x20000000.
Definition mem_map_sram_ext : Z := 0x40000000.
Definition mem_map_memlcd : Z := 0xB0000000.
Definition mem_map_csr : Z := 0xF0000000.
Definition boot_offset : Z := 0x500000.

(** [kwargs['cpu_reset_address'] = self.mem_map["spiflash"] + boot_offset]. *)
Definition cpu_reset_address : Z := mem_map_spiflash + boot_offset.

(** The submodules [reboot], [crg] and [power]. *)
Record state : Type := mkState {
  reboot : WarmBoot.state;
  crg : CRG.state;
  power : BtPower.state
}.

(** [self.submodules.reboot = WarmBoot(self, reset_vector=kwargs['cpu_reset_address'])]. *)
Definition init : state :=
  {| reboot := WarmBoot.init cpu_reset_address;
     crg := CRG.init;
     power := BtPower.init |}.

(** One bus cycle addresses at most one block. *)
Inductive access : Type :=
| NoAccess
| ToReboot (op : bus WarmBoot.reg)
| ToCrg (op : bus CRG.reg)
| ToPower (op : bus BtPower.reg).

Definition step (st : state) (m : CRG.mmcm) (a : access) : state :=
  {| reboot := WarmBoot.step (reboot st)
                 match a with ToReboot op => op | _ => Idle end;
     crg := CRG.step (crg st) m
              match a with ToCrg op => op | _ => Idle end;
     power := BtPower.step (power st)
                match a with ToPower op => op | _ => Idle end |}.

Definition run (st : state) (cycles : list (CRG.mmcm * access)) : state :=
  fold_left (fun s c => step s (fst c) (snd c)) cycles st.

(** [self.comb += warm_reset.eq(self.reboot.do_reset)] and
    [self.comb += self.crg.warm_reset.eq(warm_reset)]; [crg.warm_reset]
    is the [RST] input of the MMCM. *)
Definition warm_reset (st : state) : bool := WarmBoot.do_reset (reboot st).
Definition crg_warm_reset (st : state) : bool := warm_reset st.


(** [ResetSignal()] in a block of the [sys] domain is [cd_sys.rst]. *)
Definition ResetSignal (st : state) (m : CRG.mmcm) : bool :=
  CRG.cd_sys_rst (crg st) m.

(** The power pads, [BtPower(platform.request("power"))]. *)
Definition power_pads (st : state) (m : CRG.mmcm) : BtPower.pads :=
  BtPower.comb (power st) (ResetSignal st m).


End BaseSoC.

(** ** main *)

Module Main.
Import String.
Local Open Scope string_scope.

(** One entry that [main] appends to [_io]: a two-wire port. *)
Record port : Type := mkPort {
  name : string; tx : string; rx : string; iostandard : string
}.

(** The parsed command line: [--document-only] and [--uart-swap]. *)
Record args : Type := mkArgs { document_only : bool; uart_swap : bool }.

(** What a run of [main] comes to: the lookup of [PYTHONHASHSEED]
    raises [KeyError], or the check of its value ends the process, or
    the SoC is handed to the builder. *)
Inductive outcome : Type :=
| KeyError (key : string)
| Exit (message : string)
| Build (compile_gateware compile_software : bool) (io_added : list port).

Definition io_added (a : args) : list port :=
  if uart_swap a
  then [ mkPort "serial" "V6" "V7" "LVCMOS18";
         mkPort "debug" "B18" "D15" "LVCMOS33" ]
  else [ mkPort "debug" "V6" "V7" "LVCMOS18";
         mkPort "serial" "B18" "D15" "LVCMOS33" ].

Definition main (environ : string -> option string) (a : args) : outcome :=
  match environ "PYTHONHASHSEED" with
  | None => KeyError "PYTHONHASHSEED"
  | Some seed =>
      if negb (seed =? "1")
      then Exit "PYTHONHASHEED must be set to 1 for consistent validation results. Failing to set this results in non-deterministic compilation results"
      else
        let compile_gateware := true in
        let compile_software := false in
        let compile_gateware := if document_only a then false else compile_gateware in
        let compile_software := if document_only a then false else compile_software in
        Build compile_gateware compile_software (io_added a)
  end.

(** [platform.request(name)]: the first entry of that name. *)
Definition request (io : list port) (n : string) : option port :=
  find (fun p => name p =? n) io.

End Main.

(** * Properties *)

Section WarmBootFacts.
Import WarmBoot.

Lemma trunc_bit (n v i : Z) :
  0 <= i < n -> Signal.bit (Signal.trunc n v) i = Z.testbit v i.
Proof.
  intros Hi. unfold Signal.bit, Signal.trunc.
  apply Z.mod_pow2_bits_low. lia.
Qed.

Lemma do_reset_write (st : state) (v : Z) :
  do_reset (step st (Wr ctrl v)) = true <-> authorized v.
Proof.
  unfold do_reset, authorized. cbn [step ctrl_storage].
  unfold Csr.storage_write.
  rewrite !trunc_bit by lia.
  rewrite !andb_true_iff, !negb_true_iff. tauto.
Qed.

Lemma step_holds_ctrl (st : state) (op : bus reg) :
  holds_ctrl op -> ctrl_storage (step st op) = ctrl_storage st.
Proof.
  destruct op as [| r | r v]; try reflexivity.
  destruct r; cbn; [contradiction | reflexivity].
Qed.

Lemma run_holds_ctrl (ops : list (bus reg)) :
  forall st, Forall holds_ctrl ops -> ctrl_storage (run st ops) = ctrl_storage st.
Proof.
  induction ops as [| op ops IH]; intros st H; [reflexivity |].
  inversion H as [| ? ? Hop Hops]; subst. cbn.
  unfold run in IH. rewrite IH by assumption.
  now apply step_holds_ctrl.
Qed.

Lemma do_reset_ctrl_only (s t : state) :
  ctrl_storage s = ctrl_storage t -> do_reset s = do_reset t.
Proof. unfold do_reset. now intros ->. Qed.

End WarmBootFacts.

(** C1.  After a write of [v] to the warm-reboot [ctrl] field, and for
    as long as [ctrl] is not written again (any number of other bus
    cycles), [do_reset] is asserted if and only if bits 2, 3, 5, 7 of [v]
    are 1 and bits 4, 6 are 0; a later write of [w] replaces that by the
    same test on [w], so a non-authorized [w] deasserts it.  [do_reset]
    depends on nothing but the current [ctrl] value.  Writing 0xAC
    asserts it, writing 0xBC or 0x00 does not. *)
Theorem warmboot_do_reset_pattern
  (st : WarmBoot.state) (v w : Z) (ops ops' : list (bus WarmBoot.reg)) :
  Forall WarmBoot.holds_ctrl ops ->
  Forall WarmBoot.holds_ctrl ops' ->
  let held := WarmBoot.run (WarmBoot.step st (Wr WarmBoot.ctrl v)) ops in
  let over := WarmBoot.run (WarmBoot.step held (Wr WarmBoot.ctrl w)) ops' in
  (WarmBoot.do_reset held = true <-> WarmBoot.authorized v) /\
  (WarmBoot.do_reset over = true <-> WarmBoot.authorized w) /\
  (forall s t, WarmBoot.ctrl_storage s = WarmBoot.ctrl_storage t ->
               WarmBoot.do_reset s = WarmBoot.do_reset t) /\
  WarmBoot.do_reset (WarmBoot.step st (Wr WarmBoot.ctrl 0xAC)) = true /\
  WarmBoot.do_reset (WarmBoot.step st (Wr WarmBoot.ctrl 0xBC)) = false /\
  WarmBoot.do_reset (WarmBoot.step st (Wr WarmBoot.ctrl 0x00)) = false.
Proof.
  intros Hops Hops' held over.
  assert (Hheld : WarmBoot.do_reset held
                  = WarmBoot.do_reset (WarmBoot.step st (Wr WarmBoot.ctrl v))).
  { apply do_reset_ctrl_only. now apply run_holds_ctrl. }
  assert (Hover : WarmBoot.do_reset over
                  = WarmBoot.do_reset (WarmBoot.step held (Wr WarmBoot.ctrl w))).
  { apply do_reset_ctrl_only. now apply run_holds_ctrl. }
  split; [| split; [| split; [| repeat split]]].
  - rewrite Hheld. apply do_reset_write.
  - rewrite Hover. apply do_reset_write.
  - apply do_reset_ctrl_only.
Qed.

Lemma warmboot_do_reset_pattern_witness :
  Forall WarmBoot.holds_ctrl
    [Rd WarmBoot.ctrl; Wr WarmBoot.addr 0x20000000; Idle] /\
  Forall WarmBoot.holds_ctrl [@Idle WarmBoot.reg] /\
  (WarmBoot.do_reset
     (WarmBoot.run
        (WarmBoot.step (WarmBoot.init 0x20500000) (Wr WarmBoot.ctrl 0xAC))
        [Rd WarmBoot.ctrl; Wr WarmBoot.addr 0x20000000; Idle]) = true
   <-> WarmBoot.authorized 0xAC).
Proof.
  assert (H : Forall WarmBoot.holds_ctrl
                [Rd WarmBoot.ctrl; Wr WarmBoot.addr 0x20000000; Idle])
    by (repeat constructor).
  assert (H' : Forall WarmBoot.holds_ctrl [@Idle WarmBoot.reg])
    by (repeat constructor).
  split; [exact H |]. split; [exact H' |].
  exact (proj1 (warmboot_do_reset_pattern (WarmBoot.init 0x20500000) 0xAC 0x00
                  [Rd WarmBoot.ctrl; Wr WarmBoot.addr 0x20000000; Idle] [Idle]
                  H H')).
Defined.

Section EventSourcePulseFacts.
Import EventSourcePulse.

Lemma run_app (st : state) (xs ys : list (bool * bool)) :
  run st (xs ++ ys) = run (run st xs) ys.
Proof. unfold run. apply fold_left_app. Qed.

Lemma assertions_app (xs ys : list (bool * bool)) :
  forall st,
    assertions st (xs ++ ys) = (assertions st xs + assertions (run st xs) ys)%nat.
Proof.
  induction xs as [| c xs IH]; intros st; [reflexivity |].
  cbn [app assertions]. rewrite IH.
  change (run st (c :: xs)) with (run (step st (fst c) (snd c)) xs).
  cbv zeta. lia.
Qed.

Lemma step_keeps_pending (st : state) (trigger : bool) :
  pending st = true -> pending (step st trigger false) = true.
Proof.
  intros H. unfold step. cbn. rewrite H. now destruct (rising st trigger).
Qed.

Lemma run_keeps_pending (wave : list bool) :
  forall st, pending st = true -> pending (run st (unserviced wave)) = true.
Proof.
  induction wave as [| t wave IH]; intros st H; [exact H |].
  cbn. apply IH. now apply step_keeps_pending.
Qed.

Lemma assertions_when_pending (wave : list bool) :
  forall st, pending st = true -> assertions st (unserviced wave) = O.
Proof.
  induction wave as [| t wave IH]; intros st H; [reflexivity |].
  cbn [unserviced map assertions fst snd].
  rewrite H. cbn. apply IH. now apply step_keeps_pending.
Qed.

Lemma run_low (k : nat) :
  forall st, old_trigger st = false ->
    pending (run st (unserviced (repeat false k))) = pending st /\
    old_trigger (run st (unserviced (repeat false k))) = false /\
    assertions st (unserviced (repeat false k)) = O.
Proof.
  induction k as [| k IH]; intros st Hold; [now cbn |].
  cbn [repeat unserviced map assertions fst snd].
  change (run st ((false, false) :: map (fun t => (t, false)) (repeat false k)))
    with (run (step st false false) (unserviced (repeat false k))).
  destruct (IH (step st false false) eq_refl) as (Hp & Ho & Ha).
  fold (unserviced (repeat false k)).
  rewrite Hp, Ho, Ha. cbn. repeat split.
  destruct (pending st); reflexivity.
Qed.

Lemma unserviced_app (xs ys : list bool) :
  unserviced (xs ++ ys) = unserviced xs ++ unserviced ys.
Proof. unfold unserviced. apply map_app. Qed.

Lemma pulse_once (a h b : nat) (st : state) :
  old_trigger st = false -> pending st = false -> (0 < h)%nat ->
  assertions st (unserviced (pulse a h b)) = 1%nat.
Proof.
  intros Hold Hpend Hh. unfold pulse.
  rewrite unserviced_app, assertions_app.
  destruct (run_low a st Hold) as (Hp & Ho & Ha). rewrite Ha.
  set (idle := run st (unserviced (repeat false a))) in *.
  destruct h as [| h]; [lia |].
  cbn [repeat app unserviced map assertions fst snd].
  rewrite Hp, Hpend.
  assert (Hset : pending (step idle true false) = true).
  { unfold step, rising. cbn. now rewrite Ho. }
  rewrite Hset. cbn [negb andb].
  change (map (fun t => (t, false)) (repeat true h ++ repeat false b))
    with (unserviced (repeat true h ++ repeat false b)).
  now rewrite assertions_when_pending.
Qed.

End EventSourcePulseFacts.

Section PulseServiced.
Import EventSourcePulse.

(** While the trigger stays low, whatever software clears. *)
Lemma assertions_low (cb : list bool) :
  forall st, assertions st (map (pair false) cb) = O.
Proof.
  induction cb as [| c cb IH]; intros st; [reflexivity |].
  cbn [map assertions fst snd]. rewrite IH.
  unfold step, rising. cbn. destruct (pending st), c; reflexivity.
Qed.

Lemma run_low_idle (ca : list bool) :
  forall st, old_trigger st = false -> pending st = false ->
    pending (run st (map (pair false) ca)) = false /\
    old_trigger (run st (map (pair false) ca)) = false.
Proof.
  induction ca as [| c ca IH]; intros st Hold Hpend; [now split |].
  cbn [map].
  change (run st ((false, c) :: map (pair false) ca))
    with (run (step st false c) (map (pair false) ca)).
  apply IH; [reflexivity |].
  unfold step, rising. cbn. rewrite Hpend. now destruct c.
Qed.

(** While the trigger stays high after it was seen high, whatever
    software clears. *)
Lemma assertions_high_seen (ch : list bool) :
  forall st, old_trigger st = true -> assertions st (map (pair true) ch) = O.
Proof.
  induction ch as [| c ch IH]; intros st Hold; [reflexivity |].
  cbn [map assertions fst snd]. rewrite IH by reflexivity.
  unfold step, rising. cbn. rewrite Hold. cbn.
  destruct (pending st), c; reflexivity.
Qed.

Lemma pulse_once_serviced (ca ch cb : list bool) (st : state) :
  old_trigger st = false -> pending st = false -> ch <> [] ->
  assertions st
    (map (pair false) ca ++ map (pair true) ch ++ map (pair false) cb) = 1%nat.
Proof.
  intros Hold Hpend Hch.
  destruct ch as [| c ch]; [contradiction |].
  rewrite assertions_app, assertions_low.
  destruct (run_low_idle ca st Hold Hpend) as [Hp Ho].
  set (idle := run st (map (pair false) ca)) in *.
  cbn [map app assertions fst snd].
  rewrite assertions_app, assertions_high_seen by reflexivity.
  rewrite assertions_low.
  unfold step at 1, rising. cbn [pending]. rewrite Ho, Hp. reflexivity.
Qed.

Lemma btevents_step_keeps_pending (s : BtEvents.state) (c : BtEvents.cycle) :
  pending (BtEvents.ev_com_int s) = true ->
  BtEvents.clear 0 (BtEvents.op c) = false ->
  pending (BtEvents.ev_com_int (BtEvents.step s c)) = true.
Proof.
  intros Hp Hc. cbn [BtEvents.step BtEvents.ev_com_int]. rewrite Hc.
  now apply step_keeps_pending.
Qed.

Lemma btevents_run_keeps_pending (cycles : list BtEvents.cycle) :
  forall s,
    pending (BtEvents.ev_com_int s) = true ->
    Forall (fun c => BtEvents.clear 0 (BtEvents.op c) = false) cycles ->
    pending (BtEvents.ev_com_int (BtEvents.run s cycles)) = true.
Proof.
  induction cycles as [| c cycles IH]; intros s Hp H; [exact Hp |].
  inversion H as [| ? ? Hc Hcs]; subst. cbn.
  apply IH; [| exact Hcs]. now apply btevents_step_keeps_pending.
Qed.

End PulseServiced.

(** C2.  A rising-pulse event source, idle with its trigger low (the
    [com_int] source of [BtEvents] is one, its trigger being the
    synchronized [com_int]).  A 0-to-1 transition of the trigger sets
    [pending], also when a clear is written in that cycle.  [pending]
    then stays set over any further trigger wave and, in [BtEvents],
    over any run of bus cycles (reads of any register, idle cycles,
    writes that do not address the flag) and any movement of the pins,
    until a clear is written.  A write to the pending register with the
    bit of the source set is a clear: with no new transition in that
    cycle it resets the flag.  A run low, then high for one or more
    cycles, then low asserts [pending] exactly once, however often
    software clears the flag during or after the pulse. *)
Theorem pulse_source_pending_latched
  (st : EventSourcePulse.state) (clr : bool) (wave : list bool) (a h b : nat)
  (ca ch cb : list bool)
  (s : BtEvents.state) (cycles : list BtEvents.cycle)
  (c : BtEvents.cycle) (v : Z) :
  EventSourcePulse.old_trigger st = false ->
  EventSourcePulse.pending st = false ->
  (0 < h)%nat ->
  ch <> [] ->
  EventSourcePulse.pending (BtEvents.ev_com_int s) = true ->
  Forall (fun c => BtEvents.clear 0 (BtEvents.op c) = false) cycles ->
  BtEvents.op c = Wr BtEvents.ev_pending v ->
  Z.testbit v 0 = true ->
  let set := EventSourcePulse.step st true clr in
  let later := EventSourcePulse.run set (EventSourcePulse.unserviced wave) in
  let held := BtEvents.run s cycles in
  EventSourcePulse.pending set = true /\
  EventSourcePulse.pending later = true /\
  EventSourcePulse.pending (BtEvents.ev_com_int held) = true /\
  (forall r, BtEvents.clear 0 (Rd r) = false) /\
  BtEvents.clear 0 Idle = false /\
  (forall w, BtEvents.clear 0 (Wr BtEvents.ev_enable w) = false) /\
  BtEvents.clear 0 (BtEvents.op c) = true /\
  (EventSourcePulse.rising (BtEvents.ev_com_int held) (BtEvents.com_int_trigger held)
   = false ->
   EventSourcePulse.pending (BtEvents.ev_com_int (BtEvents.step held c)) = false) /\
  EventSourcePulse.pending (EventSourcePulse.step later false true) = false /\
  EventSourcePulse.assertions st
    (map (pair false) ca ++ map (pair true) ch ++ map (pair false) cb) = 1%nat /\
  EventSourcePulse.assertions st
    (EventSourcePulse.unserviced (EventSourcePulse.pulse a h b)) = 1%nat /\
  EventSourcePulse.pending
    (EventSourcePulse.run st
       (EventSourcePulse.unserviced (EventSourcePulse.pulse a h b))) = true.
Proof.
  intros Hold Hpend Hh Hch Hs Hcycles Hc Hv set later held.
  assert (Hset : EventSourcePulse.pending set = true).
  { unfold set, EventSourcePulse.step, EventSourcePulse.rising. cbn.
    now rewrite Hold. }
  assert (Hclr : BtEvents.clear 0 (BtEvents.op c) = true).
  { rewrite Hc. exact Hv. }
  split; [exact Hset |].
  split; [now apply run_keeps_pending |].
  split; [now apply btevents_run_keeps_pending |].
  split; [reflexivity |].
  split; [reflexivity |].
  split; [reflexivity |].
  split; [exact Hclr |].
  split.
  { intros Hrise. cbn [BtEvents.step BtEvents.ev_com_int].
    unfold EventSourcePulse.step. cbn [EventSourcePulse.pending].
    now rewrite Hrise, Hclr. }
  split; [reflexivity |].
  split; [now apply pulse_once_serviced |].
  split; [now apply pulse_once |].
  unfold EventSourcePulse.pulse.
  rewrite unserviced_app, run_app.
  destruct (run_low a st Hold) as (Hp & Ho & _).
  set (idle := EventSourcePulse.run st _) in *.
  destruct h as [| h]; [lia |].
  cbn [repeat app EventSourcePulse.unserviced map].
  change (EventSourcePulse.run idle ((true, false) :: ?l))
    with (EventSourcePulse.run (EventSourcePulse.step idle true false) l).
  apply (run_keeps_pending (repeat true h ++ repeat false b)).
  unfold EventSourcePulse.step, EventSourcePulse.rising. cbn. now rewrite Ho.
Qed.

Lemma pulse_source_pending_latched_witness :
  EventSourcePulse.old_trigger EventSourcePulse.init = false /\
  EventSourcePulse.pending EventSourcePulse.init = false /\
  (0 < 4)%nat /\
  [false; true; true; false] <> [] /\
  EventSourcePulse.pending
    (BtEvents.ev_com_int
       (BtEvents.run BtEvents.init
          [BtEvents.mkCycle true false Idle; BtEvents.mkCycle true false Idle;
           BtEvents.mkCycle true false Idle])) = true /\
  Forall (fun c => BtEvents.clear 0 (BtEvents.op c) = false)
    [BtEvents.mkCycle true false (Rd BtEvents.ev_pending);
     BtEvents.mkCycle true true (Wr BtEvents.ev_pending 2);
     BtEvents.mkCycle false true (Wr BtEvents.ev_enable 3)] /\
  BtEvents.op (BtEvents.mkCycle true false (Wr BtEvents.ev_pending 1))
  = Wr BtEvents.ev_pending 1 /\
  Z.testbit 1 0 = true /\
  EventSourcePulse.pending
    (BtEvents.ev_com_int
       (BtEvents.run
          (BtEvents.run BtEvents.init
             [BtEvents.mkCycle true false Idle; BtEvents.mkCycle true false Idle;
              BtEvents.mkCycle true false Idle])
          [BtEvents.mkCycle true false (Rd BtEvents.ev_pending);
           BtEvents.mkCycle true true (Wr BtEvents.ev_pending 2);
           BtEvents.mkCycle false true (Wr BtEvents.ev_enable 3)])) = true /\
  EventSourcePulse.assertions EventSourcePulse.init
    (map (pair false) [false; true]
     ++ map (pair true) [false; true; true; false]
     ++ map (pair false) [true; false; true]) = 1%nat.
Proof.
  assert (Hch : [false; true; true; false] <> []) by discriminate.
  assert (Hcy : Forall (fun c => BtEvents.clear 0 (BtEvents.op c) = false)
                  [BtEvents.mkCycle true false (Rd BtEvents.ev_pending);
                   BtEvents.mkCycle true true (Wr BtEvents.ev_pending 2);
                   BtEvents.mkCycle false true (Wr BtEvents.ev_enable 3)])
    by (repeat constructor).
  assert (Hh : (0 < 4)%nat) by lia.
  pose proof (pulse_source_pending_latched EventSourcePulse.init false
                [true; false; true] 2 4 3
                [false; true] [false; true; true; false] [true; false; true]
                (BtEvents.run BtEvents.init
                   [BtEvents.mkCycle true false Idle;
                    BtEvents.mkCycle true false Idle;
                    BtEvents.mkCycle true false Idle])
                [BtEvents.mkCycle true false (Rd BtEvents.ev_pending);
                 BtEvents.mkCycle true true (Wr BtEvents.ev_pending 2);
                 BtEvents.mkCycle false true (Wr BtEvents.ev_enable 3)]
                (BtEvents.mkCycle true false (Wr BtEvents.ev_pending 1)) 1
                eq_refl eq_refl Hh Hch eq_refl Hcy eq_refl eq_refl) as H.
  cbv zeta in H.
  split; [reflexivity |]. split; [reflexivity |]. split; [exact Hh |].
  split; [exact Hch |]. split; [reflexivity |]. split; [exact Hcy |].
  split; [reflexivity |]. split; [reflexivity |].
  split; [exact (proj1 (proj2 (proj2 H))) |].
  exact (proj1 (proj2 (proj2 (proj2 (proj2 (proj2 (proj2 (proj2 (proj2 (proj2 H)))))))))).
Defined.

Section BtPowerFacts.
Import BtPower.

Lemma power_step_no_write (st : state) (op : bus reg) :
  no_write op -> step st op = st.
Proof. destruct op; cbn; [reflexivity | reflexivity | contradiction]. Qed.

Lemma power_run_no_write (ops : list (bus reg)) :
  forall st, Forall no_write ops -> run st ops = st.
Proof.
  induction ops as [| op ops IH]; intros st H; [reflexivity |].
  inversion H as [| ? ? Hop Hops]; subst. cbn.
  rewrite (power_step_no_write st op Hop). now apply IH.
Qed.

Lemma slice_bit (s lo n i : Z) :
  0 <= lo -> 0 <= i < n ->
  Signal.bit (Signal.slice s lo n) i = Z.testbit s (lo + i).
Proof.
  intros Hlo Hi. unfold Signal.bit, Signal.slice.
  rewrite Z.land_spec, Z.shiftr_spec by lia.
  rewrite Z.ones_spec_low by lia.
  rewrite andb_true_r. f_equal. lia.
Qed.

Lemma power_state_bit (st : state) (i : Z) :
  0 <= i < 2 ->
  Signal.bit (field st f_state) i = Z.testbit (power_storage st) (3 + i).
Proof.
  intros Hi.
  change (field st f_state) with (Signal.slice (power_storage st) 3 2).
  now apply slice_bit.
Qed.

End BtPowerFacts.

(** C3.  After power-on / reset and before any CPU write (any number of
    idle or read bus cycles), the fields of the Power register read
    audio = 0, self = 1, ec_snoop = 0, state = 0b01, noisebias = 0 and
    noise = 0b00, the whole register reads 0x0A, and with the global
    reset deasserted the pads [pwr_s0] and [fpga_sys_on] are asserted. *)
Theorem power_reset_values (ops : list (bus BtPower.reg)) :
  Forall BtPower.no_write ops ->
  let st := BtPower.run BtPower.init ops in
  BtPower.field st BtPower.f_audio = 0 /\
  BtPower.field st BtPower.f_self = 1 /\
  BtPower.field st BtPower.f_ec_snoop = 0 /\
  BtPower.field st BtPower.f_state = 1 /\
  BtPower.field st BtPower.f_noisebias = 0 /\
  BtPower.field st BtPower.f_noise = 0 /\
  BtPower.read st BtPower.power = 0x0A /\
  BtPower.pwr_s0 (BtPower.comb st false) = true /\
  BtPower.fpga_sys_on (BtPower.comb st false) = true.
Proof.
  intros H st. unfold st. rewrite (power_run_no_write ops _ H).
  repeat split.
Qed.

Lemma power_reset_values_witness :
  Forall BtPower.no_write [Rd BtPower.power; Idle; Rd BtPower.power] /\
  BtPower.field
    (BtPower.run BtPower.init [Rd BtPower.power; Idle; Rd BtPower.power])
    BtPower.f_state = 1.
Proof.
  assert (H : Forall BtPower.no_write [Rd BtPower.power; Idle; Rd BtPower.power])
    by (repeat constructor).
  split; [exact H |].
  exact (proj1 (proj2 (proj2 (proj2
           (power_reset_values [Rd BtPower.power; Idle; Rd BtPower.power] H))))).
Defined.

(** C4.  Whatever the Power register holds, [pwr_s0] is 0 while the
    global reset is asserted; with the reset deasserted it is bit 0 of
    the state field (bit 3 of the register); [pwr_s1] is bit 1 of the
    state field (bit 4 of the register) whether or not the reset is
    asserted. *)
Theorem power_pwr_s0_gated_by_reset (st : BtPower.state) (ResetSignal : bool) :
  BtPower.pwr_s0 (BtPower.comb st true) = false /\
  BtPower.pwr_s0 (BtPower.comb st false)
    = Signal.bit (BtPower.field st BtPower.f_state) 0 /\
  BtPower.pwr_s1 (BtPower.comb st ResetSignal)
    = Signal.bit (BtPower.field st BtPower.f_state) 1 /\
  Signal.bit (BtPower.field st BtPower.f_state) 0
    = Z.testbit (BtPower.power_storage st) 3 /\
  Signal.bit (BtPower.field st BtPower.f_state) 1
    = Z.testbit (BtPower.power_storage st) 4.
Proof.
  split; [| split; [| split; [| split]]].
  - cbn [BtPower.comb BtPower.pwr_s0 negb]. apply andb_false_r.
  - cbn [BtPower.comb BtPower.pwr_s0 negb]. apply andb_true_r.
  - reflexivity.
  - apply (power_state_bit st 0). lia.
  - apply (power_state_bit st 1). lia.
Qed.

(** C8.  A CPU write of an 8-bit value [V] to the Power register is
    read back as [V], also after any number of cycles without a bus
    write in between: reads and idle cycles leave the register as it
    is, and nothing but a bus write changes it. *)
Theorem power_write_then_read (st : BtPower.state) (V : Z)
  (ops : list (bus BtPower.reg)) :
  0 <= V < 256 ->
  Forall BtPower.no_write ops ->
  BtPower.read (BtPower.step st (Wr BtPower.power V)) BtPower.power = V /\
  BtPower.read (BtPower.run (BtPower.step st (Wr BtPower.power V)) ops)
    BtPower.power = V /\
  (forall s r, BtPower.step s (Rd r) = s) /\
  (forall s, BtPower.step s Idle = s).
Proof.
  intros HV Hops.
  assert (Hw : BtPower.read (BtPower.step st (Wr BtPower.power V)) BtPower.power = V).
  { cbn. unfold Csr.storage_write, Signal.trunc.
    apply Z.mod_small. change (2 ^ 8) with 256. lia. }
  split; [exact Hw |].
  split; [| split; reflexivity].
  now rewrite (power_run_no_write ops _ Hops).
Qed.

Lemma power_write_then_read_witness :
  0 <= 0xB5 < 256 /\
  Forall BtPower.no_write [Idle; Rd BtPower.power] /\
  BtPower.read
    (BtPower.run (BtPower.step BtPower.init (Wr BtPower.power 0xB5))
                 [Idle; Rd BtPower.power])
    BtPower.power = 0xB5.
Proof.
  assert (HV : 0 <= 0xB5 < 256) by lia.
  assert (H : Forall BtPower.no_write [Idle; Rd BtPower.power])
    by (repeat constructor).
  split; [exact HV |]. split; [exact H |].
  exact (proj1 (proj2
           (power_write_then_read BtPower.init 0xB5 [Idle; Rd BtPower.power] HV H))).
Defined.

Section CRGFacts.
Import CRG.

(** What one [sys] edge does to the ready flag. *)
Lemma crg_step_ready (st : state) (m : mmcm) (op : bus reg) :
  mmcm_drdy_status (step st m op)
  = if cd_sys_rst st m then 0
    else if DEN op then 0
    else if DRDY m then 1 else mmcm_drdy_status st.
Proof.
  unfold step, DEN. destruct (cd_sys_rst st m); [reflexivity |].
  cbn [mmcm_drdy_status].
  destruct (mmcm_read_re op || mmcm_write_re op); [reflexivity |].
  destruct (DRDY m); [reflexivity |].
  destruct op as [| r | r v]; try reflexivity.
  destruct r; reflexivity.
Qed.

Lemma crg_step_idle_port (st : state) (m : mmcm) (op : bus reg) :
  mmcm_drdy_status st = 0 -> DRDY m = false ->
  mmcm_drdy_status (step st m op) = 0.
Proof.
  intros Hst Hm. rewrite crg_step_ready, Hm.
  destruct (cd_sys_rst st m); [reflexivity |].
  destruct (DEN op); [reflexivity | exact Hst].
Qed.

Lemma crg_run_idle_port (cycles : list (mmcm * bus reg)) :
  forall st, mmcm_drdy_status st = 0 -> Forall no_drdy cycles ->
    mmcm_drdy_status (run st cycles) = 0.
Proof.
  induction cycles as [| c cycles IH]; intros st Hst H; [exact Hst |].
  inversion H as [| ? ? Hc Hcs]; subst. cbn.
  apply IH; [| exact Hcs]. now apply crg_step_idle_port.
Qed.

Lemma async_reset_unlocked (m : mmcm) :
  LOCKED m = false -> async_reset m = true.
Proof. intros H. unfold async_reset, slow_clock, rst. now rewrite H. Qed.

Lemma async_reset_locked (m : mmcm) :
  LOCKED m = true -> async_reset m = false.
Proof. intros H. unfold async_reset, slow_clock, rst. now rewrite H. Qed.

(** Out of reset and locked: the domain is not in reset and stays out. *)
Lemma crg_running_not_reset (st : state) (m : mmcm) :
  running st -> LOCKED m = true -> cd_sys_rst st m = false.
Proof.
  intros Hrun Hm. unfold cd_sys_rst, AsyncResetSynchronizer.cd_rst.
  rewrite (async_reset_locked m Hm), Hrun. reflexivity.
Qed.

Lemma crg_step_running (st : state) (m : mmcm) (op : bus reg) :
  running st -> LOCKED m = true -> running (step st m op).
Proof.
  intros Hrun Hm. unfold running, step.
  rewrite (crg_running_not_reset st m Hrun Hm). cbn [sys_sync].
  rewrite (async_reset_locked m Hm), Hrun. reflexivity.
Qed.

Lemma crg_run_running (cycles : list (mmcm * bus reg)) :
  forall st, running st -> Forall locked cycles -> running (run st cycles).
Proof.
  induction cycles as [| c cycles IH]; intros st Hrun H; [exact Hrun |].
  inversion H as [| ? ? Hc Hcs]; subst. cbn.
  apply IH; [| exact Hcs]. now apply crg_step_running.
Qed.

End CRGFacts.

(** C5 as stated fails: [_mmcm_drdy] is declared [CSRStatus()] with no
    reset value, so after power-on it reads 0, not 1. *)
Lemma crg_ready_reset_is_not_one :
  CRG.read CRG.init (CRG.mkMmcm true false 0) CRG.mmcm_drdy <> 1.
Proof. cbn. discriminate. Qed.

(** C5, amended.  The ready field of the clock reconfiguration port has
    reset value 0: it reads 0 after power-on and for as long as the MMCM
    port has not reported a completion. *)
Theorem crg_ready_reset_is_zero
  (cycles : list (CRG.mmcm * bus CRG.reg)) (m : CRG.mmcm) :
  Forall CRG.no_drdy cycles ->
  CRG.mmcm_drdy_status CRG.init = 0 /\
  CRG.read (CRG.run CRG.init cycles) m CRG.mmcm_drdy = 0.
Proof.
  intros H. split; [reflexivity |].
  cbn [CRG.read]. now apply crg_run_idle_port.
Qed.

Lemma crg_ready_reset_is_zero_witness :
  Forall CRG.no_drdy [(CRG.mkMmcm true false 0, Idle);
                  (CRG.mkMmcm true false 0, Rd CRG.mmcm_drdy)] /\
  CRG.read
    (CRG.run CRG.init [(CRG.mkMmcm true false 0, Idle);
                       (CRG.mkMmcm true false 0, Rd CRG.mmcm_drdy)])
    (CRG.mkMmcm true false 0) CRG.mmcm_drdy = 0.
Proof.
  assert (H : Forall CRG.no_drdy [(CRG.mkMmcm true false 0, Idle);
                              (CRG.mkMmcm true false 0, Rd CRG.mmcm_drdy)])
    by (repeat constructor).
  split; [exact H |].
  exact (proj2 (crg_ready_reset_is_zero _ (CRG.mkMmcm true false 0) H)).
Defined.

(** C6.  With the [sys] domain out of reset and the PLL locked: a
    cycle that strobes a request, by a write of any value to
    [_mmcm_read] or to [_mmcm_write], leaves ready at 0, whatever ready
    was and even if the MMCM reports completion in that same cycle; ready
    stays 0 over any number of cycles in which the MMCM reports no
    completion; the cycle in which it reports completion leaves ready at
    1, unless a new request is strobed in that cycle, in which case the
    clear wins and ready is 0. *)
Theorem crg_ready_handshake
  (st : CRG.state) (m m' : CRG.mmcm) (r : CRG.reg) (v : Z) (op' : bus CRG.reg)
  (wait : list (CRG.mmcm * bus CRG.reg)) :
  CRG.running st ->
  CRG.LOCKED m = true ->
  r = CRG.mmcm_read \/ r = CRG.mmcm_write ->
  Forall CRG.no_drdy wait ->
  Forall CRG.locked wait ->
  CRG.LOCKED m' = true ->
  CRG.DRDY m' = true ->
  let requested := CRG.step st m (Wr r v) in
  let busy := CRG.run requested wait in
  CRG.mmcm_drdy_status requested = 0 /\
  CRG.mmcm_drdy_status busy = 0 /\
  CRG.mmcm_drdy_status (CRG.step busy m' op') = (if CRG.DEN op' then 0 else 1).
Proof.
  intros Hrun Hm Hr Hwait Hlock Hm' Hdone requested busy.
  assert (Hreq : CRG.mmcm_drdy_status requested = 0).
  { unfold requested. rewrite crg_step_ready.
    rewrite (crg_running_not_reset st m Hrun Hm).
    destruct Hr as [-> | ->]; reflexivity. }
  assert (Hbusy : CRG.running busy).
  { apply crg_run_running; [| exact Hlock]. now apply crg_step_running. }
  split; [exact Hreq |].
  split; [now apply crg_run_idle_port |].
  rewrite crg_step_ready.
  rewrite (crg_running_not_reset busy m' Hbusy Hm'), Hdone.
  reflexivity.
Qed.

Lemma crg_ready_handshake_witness :
  CRG.running
    (CRG.run CRG.init [(CRG.mkMmcm true false 0, Idle);
                       (CRG.mkMmcm true false 0, Idle)]) /\
  CRG.LOCKED (CRG.mkMmcm true true 0) = true /\
  (CRG.mmcm_write = CRG.mmcm_read \/ CRG.mmcm_write = CRG.mmcm_write) /\
  Forall CRG.no_drdy [(CRG.mkMmcm true false 0, Idle);
                      (CRG.mkMmcm true false 0, Rd CRG.mmcm_drdy)] /\
  Forall CRG.locked [(CRG.mkMmcm true false 0, Idle);
                     (CRG.mkMmcm true false 0, Rd CRG.mmcm_drdy)] /\
  CRG.LOCKED (CRG.mkMmcm true true 0x1234) = true /\
  CRG.DRDY (CRG.mkMmcm true true 0x1234) = true /\
  CRG.mmcm_drdy_status
    (CRG.step
       (CRG.run
          (CRG.step
             (CRG.run CRG.init [(CRG.mkMmcm true false 0, Idle);
                                (CRG.mkMmcm true false 0, Idle)])
             (CRG.mkMmcm true true 0) (Wr CRG.mmcm_write 1))
          [(CRG.mkMmcm true false 0, Idle);
           (CRG.mkMmcm true false 0, Rd CRG.mmcm_drdy)])
       (CRG.mkMmcm true true 0x1234) Idle) = 1.
Proof.
  assert (Hr : CRG.mmcm_write = CRG.mmcm_read \/ CRG.mmcm_write = CRG.mmcm_write)
    by (right; reflexivity).
  assert (H : Forall CRG.no_drdy [(CRG.mkMmcm true false 0, Idle);
                                  (CRG.mkMmcm true false 0, Rd CRG.mmcm_drdy)])
    by (repeat constructor).
  assert (H' : Forall CRG.locked [(CRG.mkMmcm true false 0, Idle);
                                  (CRG.mkMmcm true false 0, Rd CRG.mmcm_drdy)])
    by (repeat constructor).
  split; [reflexivity |]. split; [reflexivity |]. split; [exact Hr |].
  split; [exact H |]. split; [exact H' |].
  split; [reflexivity |]. split; [reflexivity |].
  exact (proj2 (proj2
    (crg_ready_handshake
       (CRG.run CRG.init [(CRG.mkMmcm true false 0, Idle);
                          (CRG.mkMmcm true false 0, Idle)])
       (CRG.mkMmcm true true 0) (CRG.mkMmcm true true 0x1234)
       CRG.mmcm_write 1 Idle _
       eq_refl eq_refl Hr H H' eq_refl eq_refl))).
Defined.

(** C7.  In every state of the CRG, reached by whatever register
    writes, and on every clock edge taken there, both the [sys] and the
    [spi] clock domain are in reset while the PLL is not locked. *)
Theorem crg_unlocked_holds_reset
  (st : CRG.state) (cycles : list (CRG.mmcm * bus CRG.reg))
  (m : CRG.mmcm) (op : bus CRG.reg) :
  CRG.LOCKED m = false ->
  let now := CRG.run st cycles in
  CRG.cd_sys_rst now m = true /\
  CRG.cd_spi_rst now m = true /\
  CRG.cd_sys_rst (CRG.step now m op) m = true /\
  CRG.cd_spi_rst (CRG.step now m op) m = true.
Proof.
  intros Hm now.
  unfold CRG.cd_sys_rst, CRG.cd_spi_rst, AsyncResetSynchronizer.cd_rst.
  rewrite (async_reset_unlocked m Hm).
  repeat split.
Qed.

Lemma crg_unlocked_holds_reset_witness :
  CRG.LOCKED (CRG.mkMmcm false false 0) = false /\
  CRG.cd_sys_rst
    (CRG.run CRG.init [(CRG.mkMmcm true false 0, Wr CRG.mmcm_adr 0x28);
                       (CRG.mkMmcm true false 0, Wr CRG.mmcm_write 1)])
    (CRG.mkMmcm false false 0) = true.
Proof.
  split; [reflexivity |].
  exact (proj1
    (crg_unlocked_holds_reset CRG.init
       [(CRG.mkMmcm true false 0, Wr CRG.mmcm_adr 0x28);
        (CRG.mkMmcm true false 0, Wr CRG.mmcm_write 1)]
       (CRG.mkMmcm false false 0) Idle eq_refl)).
Defined.

Section MultiRegFacts.
Context {A : Type}.

Lemma multireg_step_length (regs : list A) (i : A) :
  length regs = 2%nat -> length (MultiReg.step regs i) = 2%nat.
Proof.
  destruct regs as [| r0 [| r1 [| r2 regs]]]; cbn; intros H; try discriminate H.
  reflexivity.
Qed.

Lemma multireg_run_length (samples : list A) :
  forall regs, length regs = 2%nat ->
    length (MultiReg.run regs samples) = 2%nat.
Proof.
  induction samples as [| x samples IH]; intros regs H; [exact H |].
  cbn. apply IH. now apply multireg_step_length.
Qed.

Lemma multireg_run_app (regs : list A) (xs ys : list A) :
  MultiReg.run regs (xs ++ ys) = MultiReg.run (MultiReg.run regs xs) ys.
Proof. unfold MultiReg.run. apply fold_left_app. Qed.

(** Two edges after a sample was taken, it is the output. *)
Lemma multireg_two_edges (reset : A) (regs pre : list A) (a b : A) :
  length regs = 2%nat ->
  MultiReg.o reset (MultiReg.run regs (pre ++ [a; b])) = a.
Proof.
  intros H. rewrite multireg_run_app.
  pose proof (multireg_run_length pre regs H) as Hlen.
  destruct (MultiReg.run regs pre) as [| r0 [| r1 [| r2 l]]];
    try discriminate Hlen.
  reflexivity.
Qed.

(** One edge after a sample was taken, the output does not depend on it. *)
Lemma multireg_one_edge (reset : A) (regs pre : list A) (b b' : A) :
  length regs = 2%nat ->
  MultiReg.o reset (MultiReg.run regs (pre ++ [b]))
  = MultiReg.o reset (MultiReg.run regs (pre ++ [b'])).
Proof.
  intros H. rewrite !multireg_run_app.
  pose proof (multireg_run_length pre regs H) as Hlen.
  destruct (MultiReg.run regs pre) as [| r0 [| r1 [| r2 l]]];
    try discriminate Hlen.
  reflexivity.
Qed.

Lemma list_last_two (l : list A) :
  l = [] \/ (exists a, l = [a]) \/ (exists pre a b, l = pre ++ [a; b]).
Proof.
  induction l as [| x l IH] using rev_ind; [now left |].
  right. destruct IH as [-> | [[a ->] | (pre & a & b & ->)]].
  - left. now exists x.
  - right. now exists [], a, x.
  - right. exists (pre ++ [a]), b, x. now rewrite <- !app_assoc.
Qed.

(** The output is the reset value or one of the samples taken. *)
Lemma multireg_output_sampled (reset : A) (samples : list A) :
  In (MultiReg.o reset (MultiReg.run (MultiReg.init reset) samples))
     (reset :: samples).
Proof.
  destruct (list_last_two samples) as [-> | [[a ->] | (pre & a & b & ->)]].
  - now left.
  - now left.
  - rewrite (multireg_two_edges reset (MultiReg.init reset) pre a b eq_refl).
    right. apply in_or_app. right. now left.
Qed.

End MultiRegFacts.

Section SynchronizerWiring.

Lemma btevents_com_sync (cycles : list BtEvents.cycle) :
  forall st,
    BtEvents.com_sync (BtEvents.run st cycles)
    = MultiReg.run (BtEvents.com_sync st) (map BtEvents.com cycles).
Proof.
  induction cycles as [| c cycles IH]; intros st; [reflexivity |].
  cbn. unfold BtEvents.run in IH. now rewrite IH.
Qed.

Lemma btevents_rtc_sync (cycles : list BtEvents.cycle) :
  forall st,
    BtEvents.rtc_sync (BtEvents.run st cycles)
    = MultiReg.run (BtEvents.rtc_sync st) (map BtEvents.rtc cycles).
Proof.
  induction cycles as [| c cycles IH]; intros st; [reflexivity |].
  cbn. unfold BtEvents.run in IH. now rewrite IH.
Qed.

Lemma btgpio_input_sync (cycles : list BtGpio.cycle) :
  forall st,
    BtGpio.input_sync (BtGpio.run st cycles)
    = MultiReg.run (BtGpio.input_sync st) (map BtGpio.gpio_in cycles).
Proof.
  induction cycles as [| c cycles IH]; intros st; [reflexivity |].
  cbn. unfold BtGpio.run in IH. now rewrite IH.
Qed.

Lemma btgpio_step_undriven (st : BtGpio.state) (c : BtGpio.cycle) :
  BtGpio.intena_status (BtGpio.step st c) = BtGpio.intena_status st /\
  BtGpio.intpol_status (BtGpio.step st c) = BtGpio.intpol_status st.
Proof.
  destruct c as [g o]. cbn [BtGpio.step BtGpio.intena_status
                            BtGpio.intpol_status BtGpio.op].
  destruct o as [| r | r v]; [now split | now split |].
  destruct r; now split.
Qed.

Lemma btgpio_run_undriven (cycles : list BtGpio.cycle) :
  forall st,
    BtGpio.intena_status (BtGpio.run st cycles) = BtGpio.intena_status st /\
    BtGpio.intpol_status (BtGpio.run st cycles) = BtGpio.intpol_status st.
Proof.
  induction cycles as [| c cycles IH]; intros st; [now split |].
  change (BtGpio.run st (c :: cycles))
    with (BtGpio.run (BtGpio.step st c) cycles).
  destruct (IH (BtGpio.step st c)) as [Hena Hpol].
  destruct (btgpio_step_undriven st c) as [Hena' Hpol'].
  split; congruence.
Qed.

End SynchronizerWiring.

(** C9.  The raw inputs [com_irq], [rtc_irq] and the GPIO pins reach the
    event triggers and the GPIO input status only through their
    synchronizer, which has at least two stages.  After reset and any
    run of cycles, the value observed in a cycle is the one the pin had
    two clock edges earlier, whole; what the pin carried at the last
    clock edge has no effect on it; and the GPIO input status is always
    the reset value or a word that was sampled, never a mix. *)
Theorem inputs_seen_through_synchronizer
  (pre : list BtEvents.cycle) (a b b' : BtEvents.cycle)
  (gpre : list BtGpio.cycle) (ga gb gb' : BtGpio.cycle) (i : nat) :
  let ev2 := BtEvents.run BtEvents.init (pre ++ [a; b]) in
  let gp2 := BtGpio.run BtGpio.init (gpre ++ [ga; gb]) in
  (2 <= MultiReg.n)%nat /\
  BtEvents.com_int_trigger ev2 = BtEvents.com a /\
  BtEvents.rtc_int_trigger ev2 = BtEvents.rtc a /\
  BtEvents.com_int_trigger (BtEvents.run BtEvents.init (pre ++ [b]))
    = BtEvents.com_int_trigger (BtEvents.run BtEvents.init (pre ++ [b'])) /\
  BtEvents.rtc_int_trigger (BtEvents.run BtEvents.init (pre ++ [b]))
    = BtEvents.rtc_int_trigger (BtEvents.run BtEvents.init (pre ++ [b'])) /\
  BtGpio.read gp2 BtGpio.input = BtGpio.gpio_in ga /\
  BtGpio.trigger gp2 i
    = xorb (Signal.bit (BtGpio.gpio_in ga) (Z.of_nat i))
           (Signal.bit (BtGpio.intpol_status gp2) (Z.of_nat i)) /\
  BtGpio.input_status (BtGpio.run BtGpio.init (gpre ++ [gb]))
    = BtGpio.input_status (BtGpio.run BtGpio.init (gpre ++ [gb'])) /\
  In (BtGpio.input_status (BtGpio.run BtGpio.init gpre))
     (Csr.default_reset :: map BtGpio.gpio_in gpre).
Proof.
  intros ev2 gp2.
  assert (Hin : BtGpio.input_status gp2 = BtGpio.gpio_in ga).
  { unfold gp2, BtGpio.input_status.
    rewrite btgpio_input_sync, map_app.
    now apply multireg_two_edges. }
  split; [unfold MultiReg.n; lia |].
  split.
  { unfold ev2, BtEvents.com_int_trigger, BtEvents.com_int.
    rewrite btevents_com_sync, map_app.
    now apply multireg_two_edges. }
  split.
  { unfold ev2, BtEvents.rtc_int_trigger, BtEvents.rtc_int.
    rewrite btevents_rtc_sync, map_app.
    now apply multireg_two_edges. }
  split.
  { unfold BtEvents.com_int_trigger, BtEvents.com_int.
    rewrite !btevents_com_sync, !map_app.
    now apply multireg_one_edge. }
  split.
  { unfold BtEvents.rtc_int_trigger, BtEvents.rtc_int.
    rewrite !btevents_rtc_sync, !map_app.
    now apply multireg_one_edge. }
  split; [exact Hin |].
  split; [unfold BtGpio.trigger; now rewrite Hin |].
  split.
  { unfold BtGpio.input_status.
    rewrite !btgpio_input_sync, !map_app.
    now apply multireg_one_edge. }
  unfold BtGpio.input_status. rewrite btgpio_input_sync.
  apply multireg_output_sampled.
Qed.

(** C10.  In every state the GPIO block reaches from reset, [intena]
    and [intpol] read 0, a CPU write to either leaves it as it is, and
    the trigger of every GPIO event source is the synchronized input bit
    itself. *)
Theorem gpio_intpol_intena_inoperative
  (cycles : list BtGpio.cycle) (pins v : Z) (i : nat) :
  let st := BtGpio.run BtGpio.init cycles in
  BtGpio.read st BtGpio.intena = 0 /\
  BtGpio.read st BtGpio.intpol = 0 /\
  BtGpio.read (BtGpio.step st (BtGpio.mkCycle pins (Wr BtGpio.intena v)))
    BtGpio.intena = 0 /\
  BtGpio.read (BtGpio.step st (BtGpio.mkCycle pins (Wr BtGpio.intpol v)))
    BtGpio.intpol = 0 /\
  BtGpio.trigger st i = Signal.bit (BtGpio.input_status st) (Z.of_nat i).
Proof.
  intros st.
  destruct (btgpio_run_undriven cycles BtGpio.init) as [Hena Hpol].
  fold st in Hena, Hpol. cbn in Hena, Hpol.
  split; [exact Hena |]. split; [exact Hpol |].
  split.
  { cbn [BtGpio.read].
    now rewrite (proj1 (btgpio_step_undriven st _)). }
  split.
  { cbn [BtGpio.read].
    now rewrite (proj2 (btgpio_step_undriven st _)). }
  unfold BtGpio.trigger. rewrite Hpol.
  unfold Signal.bit at 2. rewrite Z.bits_0. apply xorb_false_r.
Qed.

(** * Further properties of the blocks *)

Section WarmBootMore.
Import WarmBoot.

Lemma warmboot_step_ctrl_range (st : state) (op : bus reg) :
  0 <= ctrl_storage st < 256 -> 0 <= ctrl_storage (step st op) < 256.
Proof.
  intros H. destruct op as [| r | r v]; try exact H.
  destruct r; cbn; [| exact H].
  unfold Csr.storage_write, Signal.trunc. change (2 ^ 8) with 256.
  apply Z.mod_pos_bound. lia.
Qed.

Lemma warmboot_run_ctrl_range (ops : list (bus reg)) :
  forall st, 0 <= ctrl_storage st < 256 -> 0 <= ctrl_storage (run st ops) < 256.
Proof.
  induction ops as [| op ops IH]; intros st H; [exact H |].
  cbn. apply IH. now apply warmboot_step_ctrl_range.
Qed.

Lemma do_reset_byte_range (c a : Z) :
  0 <= c < 256 ->
  (do_reset (mkState c a) = true <-> 172 <= c <= 175).
Proof.
  intros Hc.
  assert (Hall : forallb
            (fun k => Bool.eqb (do_reset (mkState (Z.of_nat k) 0))
                               ((172 <=? Z.of_nat k) && (Z.of_nat k <=? 175)))
            (seq 0 256) = true) by (vm_compute; reflexivity).
  rewrite forallb_forall in Hall.
  specialize (Hall (Z.to_nat c)).
  rewrite Z2Nat.id in Hall by lia.
  assert (Hin : In (Z.to_nat c) (seq 0 256)) by (apply in_seq; lia).
  apply Hall in Hin. apply Bool.eqb_prop in Hin.
  rewrite (do_reset_ctrl_only (mkState c a) (mkState c 0) eq_refl), Hin.
  rewrite andb_true_iff, Z.leb_le, Z.leb_le. tauto.
Qed.

Lemma warmboot_step_keeps (r : reg) (st : state) (op : bus reg) :
  WarmBootRegs.keeps r op -> read (step st op) r = read st r.
Proof.
  destruct op as [| r' | r' v]; try reflexivity.
  destruct r', r; cbn; intros H; try contradiction; reflexivity.
Qed.

Lemma warmboot_run_keeps (r : reg) (ops : list (bus reg)) :
  forall st, Forall (WarmBootRegs.keeps r) ops -> read (run st ops) r = read st r.
Proof.
  induction ops as [| op ops IH]; intros st H; [reflexivity |].
  inversion H as [| ? ? Hop Hops]; subst. cbn.
  unfold run in IH. rewrite IH by assumption.
  now apply warmboot_step_keeps.
Qed.

Lemma warmboot_reset_origin (ops : list (bus reg)) :
  forall st, do_reset (run st ops) = true ->
    do_reset st = true \/ exists v, In (Wr ctrl v) ops /\ authorized v.
Proof.
  induction ops as [| op ops IH]; intros st H; [now left |].
  change (run st (op :: ops)) with (run (step st op) ops) in H.
  destruct (IH _ H) as [Hnow | (v & Hin & Hv)].
  - destruct op as [| r | r v]; try (now left).
    destruct r.
    + right. exists v. split; [now left | now apply (do_reset_write st)].
    + left. now rewrite <- (do_reset_ctrl_only (step st (Wr addr v)) st eq_refl).
  - right. exists v. split; [now right | exact Hv].
Qed.

End WarmBootMore.

(** X1.  In every state reached from power-on the [ctrl] register holds
    a byte, and the reset request is asserted exactly when that byte is
    one of 0xAC, 0xAD, 0xAE, 0xAF (the "Reset Key" 0b101011xx of the
    source). *)
Theorem warmboot_reset_key_range
  (reset_vector : Z) (ops : list (bus WarmBoot.reg)) :
  let st := WarmBoot.run (WarmBoot.init reset_vector) ops in
  0 <= WarmBoot.read st WarmBoot.ctrl < 256 /\
  (WarmBoot.do_reset st = true <-> 0xAC <= WarmBoot.read st WarmBoot.ctrl <= 0xAF).
Proof.
  intros st.
  assert (H : 0 <= WarmBoot.ctrl_storage st < 256).
  { apply warmboot_run_ctrl_range. cbn. unfold Csr.default_reset. lia. }
  split; [exact H |].
  destruct st as [c a]. cbn [WarmBoot.read WarmBoot.ctrl_storage] in *.
  now apply do_reset_byte_range.
Qed.

(** X2.  The two registers of [WarmBoot] are independent and the last
    write wins: a register reads the low bits (8 for [ctrl], 32 for
    [addr]) of the value last written to it, whatever was done to the
    other register before or after, and a run that does not write it
    leaves it as it was. *)
Theorem warmboot_last_write_wins
  (st : WarmBoot.state) (r : WarmBoot.reg) (v : Z)
  (pre post ops : list (bus WarmBoot.reg)) :
  Forall (WarmBootRegs.keeps r) post ->
  Forall (WarmBootRegs.keeps r) ops ->
  WarmBoot.read (WarmBoot.run st (pre ++ Wr r v :: post)) r
    = v mod 2 ^ WarmBootRegs.width r /\
  WarmBoot.read (WarmBoot.run st ops) r = WarmBoot.read st r.
Proof.
  intros Hpost Hops. split; [| now apply warmboot_run_keeps].
  unfold WarmBoot.run. rewrite fold_left_app. cbn [fold_left].
  fold (WarmBoot.run (WarmBoot.step (fold_left WarmBoot.step pre st) (Wr r v)) post).
  rewrite (warmboot_run_keeps r post _ Hpost).
  destruct r; reflexivity.
Qed.

Lemma warmboot_last_write_wins_witness :
  Forall (WarmBootRegs.keeps WarmBoot.addr) [Wr WarmBoot.ctrl 0xAC; Idle] /\
  Forall (WarmBootRegs.keeps WarmBoot.addr) [Rd WarmBoot.addr] /\
  WarmBoot.read
    (WarmBoot.run (WarmBoot.init 0)
       ([Wr WarmBoot.addr 1] ++ Wr WarmBoot.addr 0x120000000
          :: [Wr WarmBoot.ctrl 0xAC; Idle]))
    WarmBoot.addr = 0x120000000 mod 2 ^ WarmBootRegs.width WarmBoot.addr.
Proof.
  assert (H : Forall (WarmBootRegs.keeps WarmBoot.addr) [Wr WarmBoot.ctrl 0xAC; Idle])
    by (repeat constructor).
  assert (H' : Forall (WarmBootRegs.keeps WarmBoot.addr) [Rd WarmBoot.addr])
    by (repeat constructor).
  split; [exact H |]. split; [exact H' |].
  exact (proj1 (warmboot_last_write_wins (WarmBoot.init 0) WarmBoot.addr
                  0x120000000 [Wr WarmBoot.addr 1] _ _ H H')).
Defined.

(** X3.  The reset request is never asserted on its own: if it is
    asserted in a state reached from power-on, the bus has written an
    authorized byte to [ctrl] on the way. *)
Theorem warmboot_reset_needs_key_write
  (reset_vector : Z) (ops : list (bus WarmBoot.reg)) :
  WarmBoot.do_reset (WarmBoot.run (WarmBoot.init reset_vector) ops) = true ->
  exists v, In (Wr WarmBoot.ctrl v) ops /\ WarmBoot.authorized v.
Proof.
  intros H. destruct (warmboot_reset_origin ops _ H) as [Hinit | Hex].
  - discriminate Hinit.
  - exact Hex.
Qed.

Lemma warmboot_reset_needs_key_write_witness :
  WarmBoot.do_reset
    (WarmBoot.run (WarmBoot.init 0x20500000)
       [Wr WarmBoot.addr 4; Wr WarmBoot.ctrl 0xAE]) = true /\
  exists v, In (Wr WarmBoot.ctrl v) [Wr WarmBoot.addr 4; Wr WarmBoot.ctrl 0xAE]
            /\ WarmBoot.authorized v.
Proof.
  assert (H : WarmBoot.do_reset
                (WarmBoot.run (WarmBoot.init 0x20500000)
                   [Wr WarmBoot.addr 4; Wr WarmBoot.ctrl 0xAE]) = true)
    by reflexivity.
  split; [exact H |].
  exact (warmboot_reset_needs_key_write 0x20500000 _ H).
Defined.

Section CRGMore.
Import CRG.

Lemma crg_run_app (st : state) (xs ys : list (mmcm * bus reg)) :
  run st (xs ++ ys) = run (run st xs) ys.
Proof. unfold run. apply fold_left_app. Qed.

Lemma crg_step_operands (st : state) (c : mmcm * bus reg) :
  running st -> locked c -> DRP.keeps_operands c ->
  mmcm_adr_storage (step st (fst c) (snd c)) = mmcm_adr_storage st /\
  mmcm_dat_w_storage (step st (fst c) (snd c)) = mmcm_dat_w_storage st.
Proof.
  destruct c as [m op]. unfold DRP.keeps_operands, locked. cbn [fst snd].
  intros Hrun Hm. unfold step. rewrite (crg_running_not_reset st m Hrun Hm).
  cbn [mmcm_adr_storage mmcm_dat_w_storage].
  destruct op as [| r | r v]; [now split | now split |].
  destruct r; intros H; try contradiction; now split.
Qed.

Lemma crg_run_operands (cycles : list (mmcm * bus reg)) :
  forall st, running st -> Forall locked cycles ->
    Forall DRP.keeps_operands cycles ->
    mmcm_adr_storage (run st cycles) = mmcm_adr_storage st /\
    mmcm_dat_w_storage (run st cycles) = mmcm_dat_w_storage st.
Proof.
  induction cycles as [| c cycles IH]; intros st Hrun Hl H; [now split |].
  inversion H as [| ? ? Hc Hcs]; subst.
  inversion Hl as [| ? ? Hlc Hlcs]; subst.
  change (run st (c :: cycles)) with (run (step st (fst c) (snd c)) cycles).
  assert (Hrun' : running (step st (fst c) (snd c)))
    by (now apply crg_step_running).
  destruct (IH _ Hrun' Hlcs Hcs) as [Ha Hd].
  destruct (crg_step_operands st c Hrun Hlc Hc) as [Ha' Hd'].
  split; congruence.
Qed.

(** Out of reset, a cycle without a request leaves a raised ready flag
    raised. *)
Lemma crg_step_stays_ready (st : state) (c : mmcm * bus reg) :
  running st -> locked c ->
  mmcm_drdy_status st = 1 -> DRP.no_request c ->
  mmcm_drdy_status (step st (fst c) (snd c)) = 1.
Proof.
  destruct c as [m op]. unfold DRP.no_request, locked. cbn [fst snd].
  intros Hrun Hm Hst Hreq. rewrite crg_step_ready.
  rewrite (crg_running_not_reset st m Hrun Hm), Hreq.
  destruct (DRDY m); [reflexivity | exact Hst].
Qed.

Lemma crg_run_stays_ready (cycles : list (mmcm * bus reg)) :
  forall st, running st -> Forall locked cycles ->
    mmcm_drdy_status st = 1 -> Forall DRP.no_request cycles ->
    mmcm_drdy_status (run st cycles) = 1.
Proof.
  induction cycles as [| c cycles IH]; intros st Hrun Hl Hst H; [exact Hst |].
  inversion H as [| ? ? Hc Hcs]; subst.
  inversion Hl as [| ? ? Hlc Hlcs]; subst.
  change (run st (c :: cycles)) with (run (step st (fst c) (snd c)) cycles).
  apply IH; try assumption.
  - now apply crg_step_running.
  - now apply crg_step_stays_ready.
Qed.

Lemma crg_step_ranges (st : state) (m : mmcm) (op : bus reg) :
  (mmcm_drdy_status st = 0 \/ mmcm_drdy_status st = 1) /\
  0 <= mmcm_adr_storage st < 128 /\ 0 <= mmcm_dat_w_storage st < 65536 ->
  (mmcm_drdy_status (step st m op) = 0 \/ mmcm_drdy_status (step st m op) = 1) /\
  0 <= mmcm_adr_storage (step st m op) < 128 /\
  0 <= mmcm_dat_w_storage (step st m op) < 65536.
Proof.
  intros (Hr & Ha & Hd).
  split.
  { rewrite crg_step_ready. destruct (cd_sys_rst st m); [now left |].
    destruct (DEN op); [now left |].
    destruct (DRDY m); [now right | exact Hr]. }
  unfold step. destruct (cd_sys_rst st m).
  { cbn [mmcm_adr_storage mmcm_dat_w_storage]. unfold Csr.default_reset. lia. }
  cbn [mmcm_adr_storage mmcm_dat_w_storage].
  unfold Csr.storage_write, Signal.trunc.
  split.
  - destruct op as [| r | r v]; try exact Ha.
    destruct r; try exact Ha.
    change (2 ^ 7) with 128. apply Z.mod_pos_bound. lia.
  - destruct op as [| r | r v]; try exact Hd.
    destruct r; try exact Hd.
    change (2 ^ 16) with 65536. apply Z.mod_pos_bound. lia.
Qed.

(** A [sys] edge sees nothing of the [spi] synchronizer. *)
Lemma crg_step_sys_part (s t : state) (m : mmcm) (op : bus reg) :
  mmcm_drdy_status s = mmcm_drdy_status t ->
  mmcm_adr_storage s = mmcm_adr_storage t ->
  mmcm_dat_w_storage s = mmcm_dat_w_storage t ->
  sys_sync s = sys_sync t ->
  mmcm_drdy_status (step s m op) = mmcm_drdy_status (step t m op) /\
  mmcm_adr_storage (step s m op) = mmcm_adr_storage (step t m op) /\
  mmcm_dat_w_storage (step s m op) = mmcm_dat_w_storage (step t m op) /\
  sys_sync (step s m op) = sys_sync (step t m op).
Proof.
  intros Hr Ha Hd Hs. unfold step, cd_sys_rst. rewrite Hs.
  destruct (AsyncResetSynchronizer.cd_rst (sys_sync t) (async_reset m));
    cbn [mmcm_drdy_status mmcm_adr_storage mmcm_dat_w_storage sys_sync];
    rewrite ?Hr, ?Ha, ?Hd, ?Hs; repeat split.
Qed.

Lemma crg_ticks_sys_part (ticks : list tick) :
  forall s t,
    Forall locked_tick ticks ->
    mmcm_drdy_status s = mmcm_drdy_status t ->
    mmcm_adr_storage s = mmcm_adr_storage t ->
    mmcm_dat_w_storage s = mmcm_dat_w_storage t ->
    sys_sync s = sys_sync t ->
    mmcm_drdy_status (run_ticks s ticks) = mmcm_drdy_status (run t (sys_edges ticks)) /\
    mmcm_adr_storage (run_ticks s ticks) = mmcm_adr_storage (run t (sys_edges ticks)) /\
    mmcm_dat_w_storage (run_ticks s ticks) = mmcm_dat_w_storage (run t (sys_edges ticks)) /\
    sys_sync (run_ticks s ticks) = sys_sync (run t (sys_edges ticks)).
Proof.
  induction ticks as [| k ticks IH]; intros s t Hl Hr Ha Hd Hs;
    [now repeat split |].
  inversion Hl as [| ? ? Hk Hks]; subst.
  change (run_ticks s (k :: ticks)) with (run_ticks (tick_step s k) ticks).
  destruct k as [m op | m].
  - cbn [sys_edges tick_step].
    change (run t ((m, op) :: sys_edges ticks))
      with (run (step t m op) (sys_edges ticks)).
    destruct (crg_step_sys_part s t m op Hr Ha Hd Hs) as (Hr' & Ha' & Hd' & Hs').
    now apply IH.
  - cbn [sys_edges tick_step]. cbn in Hk.
    apply IH; try assumption.
    cbn [spi_step sys_sync]. rewrite (async_reset_locked m Hk). exact Hs.
Qed.

End CRGMore.

(** X4.  A DRP transaction as the MMCM sees it, with the [sys] domain
    out of reset and the PLL locked: once [_mmcm_adr] and [_mmcm_dat_w]
    have been written, and until one of them is written again, [DADDR]
    and [DI] carry the low 7 and 16 bits of what was written; a write of
    any value to [_mmcm_write] raises [DEN] and [DWE], a write of any
    value to [_mmcm_read] raises [DEN] alone; [DWE] is never up without
    [DEN]; no read, no idle cycle and no write to another register
    raises [DEN]; and a clock edge with the PLL unlocked puts [DADDR] and
    [DI] back to 0. *)
Theorem drp_transaction_wires
  (st : CRG.state) (a d v : Z) (m1 m2 : CRG.mmcm)
  (between : list (CRG.mmcm * bus CRG.reg)) :
  CRG.running st ->
  CRG.LOCKED m1 = true ->
  CRG.LOCKED m2 = true ->
  Forall CRG.locked between ->
  Forall DRP.keeps_operands between ->
  let loaded :=
    CRG.run (CRG.step (CRG.step st m1 (Wr CRG.mmcm_adr a)) m2 (Wr CRG.mmcm_dat_w d))
            between in
  DRP.DADDR loaded = a mod 2 ^ 7 /\
  DRP.DI loaded = d mod 2 ^ 16 /\
  CRG.DEN (Wr CRG.mmcm_write v) = true /\
  DRP.DWE (Wr CRG.mmcm_write v) = true /\
  CRG.DEN (Wr CRG.mmcm_read v) = true /\
  DRP.DWE (Wr CRG.mmcm_read v) = false /\
  (forall op, DRP.DWE op = true -> CRG.DEN op = true) /\
  (forall r, CRG.DEN (Rd r) = false) /\
  CRG.DEN (@Idle CRG.reg) = false /\
  (forall r w, CRG.DEN (Wr r w) = true -> r = CRG.mmcm_read \/ r = CRG.mmcm_write) /\
  (forall m op, CRG.LOCKED m = false ->
     DRP.DADDR (CRG.step loaded m op) = 0 /\ DRP.DI (CRG.step loaded m op) = 0).
Proof.
  intros Hrun Hm1 Hm2 Hl H loaded.
  assert (Hrun1 : CRG.running (CRG.step st m1 (Wr CRG.mmcm_adr a)))
    by (now apply crg_step_running).
  assert (Hrun2 : CRG.running
            (CRG.step (CRG.step st m1 (Wr CRG.mmcm_adr a)) m2 (Wr CRG.mmcm_dat_w d)))
    by (now apply crg_step_running).
  destruct (crg_run_operands between _ Hrun2 Hl H) as [Ha Hd].
  split.
  { unfold DRP.DADDR, loaded. rewrite Ha. unfold CRG.step at 1.
    rewrite (crg_running_not_reset _ m2 Hrun1 Hm2). cbn [CRG.mmcm_adr_storage].
    unfold CRG.step. rewrite (crg_running_not_reset st m1 Hrun Hm1). reflexivity. }
  split.
  { unfold DRP.DI, loaded. rewrite Hd. unfold CRG.step at 1.
    rewrite (crg_running_not_reset _ m2 Hrun1 Hm2). reflexivity. }
  repeat (split; [reflexivity |]).
  split.
  { intros op Hop. unfold DRP.DWE in Hop. unfold CRG.DEN.
    rewrite Hop. apply orb_true_r. }
  split; [reflexivity |]. split; [reflexivity |].
  split.
  { intros r w Hden. destruct r; try discriminate Hden; [now left | now right]. }
  intros m op Hm. unfold DRP.DADDR, DRP.DI, CRG.step at 1 2.
  unfold CRG.cd_sys_rst, AsyncResetSynchronizer.cd_rst.
  rewrite (async_reset_unlocked m Hm). split; reflexivity.
Qed.

Lemma drp_transaction_wires_witness :
  CRG.running
    (CRG.run CRG.init [(CRG.mkMmcm true false 0, Idle);
                       (CRG.mkMmcm true false 0, Idle)]) /\
  CRG.LOCKED (CRG.mkMmcm true false 0) = true /\
  Forall CRG.locked
    [(CRG.mkMmcm true false 0, Rd CRG.mmcm_drdy);
     (CRG.mkMmcm true false 0, @Idle CRG.reg)] /\
  Forall DRP.keeps_operands
    [(CRG.mkMmcm true false 0, Rd CRG.mmcm_drdy);
     (CRG.mkMmcm true false 0, @Idle CRG.reg)] /\
  DRP.DADDR
    (CRG.run
       (CRG.step
          (CRG.step
             (CRG.run CRG.init [(CRG.mkMmcm true false 0, Idle);
                                (CRG.mkMmcm true false 0, Idle)])
             (CRG.mkMmcm true false 0) (Wr CRG.mmcm_adr 0x88))
          (CRG.mkMmcm true false 0) (Wr CRG.mmcm_dat_w 0x1041))
       [(CRG.mkMmcm true false 0, Rd CRG.mmcm_drdy);
        (CRG.mkMmcm true false 0, @Idle CRG.reg)]) = 0x88 mod 2 ^ 7.
Proof.
  assert (Hl : Forall CRG.locked
                 [(CRG.mkMmcm true false 0, Rd CRG.mmcm_drdy);
                  (CRG.mkMmcm true false 0, @Idle CRG.reg)])
    by (repeat constructor).
  assert (H : Forall DRP.keeps_operands
                [(CRG.mkMmcm true false 0, Rd CRG.mmcm_drdy);
                 (CRG.mkMmcm true false 0, @Idle CRG.reg)])
    by (repeat constructor).
  split; [reflexivity |]. split; [reflexivity |].
  split; [exact Hl |]. split; [exact H |].
  exact (proj1 (drp_transaction_wires
                  (CRG.run CRG.init [(CRG.mkMmcm true false 0, Idle);
                                     (CRG.mkMmcm true false 0, Idle)])
                  0x88 0x1041 0
                  (CRG.mkMmcm true false 0) (CRG.mkMmcm true false 0) _
                  eq_refl eq_refl eq_refl Hl H)).
Defined.

(** X5.  What a raised ready flag means.  Take the [sys] domain out
    of reset with ready at 0, and a run of cycles with the PLL locked.
    At its end ready reads 1 if and only if some cycle of the run had the
    MMCM report completion with no request strobed in that cycle, and no
    request has been strobed since. *)
Theorem crg_ready_means_completed
  (st : CRG.state) (cycles : list (CRG.mmcm * bus CRG.reg)) :
  CRG.running st ->
  CRG.mmcm_drdy_status st = 0 ->
  Forall CRG.locked cycles ->
  (CRG.mmcm_drdy_status (CRG.run st cycles) = 1 <->
   exists pre c post,
     cycles = pre ++ c :: post /\
     CRG.DRDY (fst c) = true /\ CRG.DEN (snd c) = false /\
     Forall DRP.no_request post).
Proof.
  intros Hrun Hst Hl. split.
  - revert Hl. induction cycles as [| x l IH] using rev_ind; intros Hl.
    + cbn. rewrite Hst. discriminate.
    + apply Forall_app in Hl. destruct Hl as [Hl Hx].
      inversion Hx as [| ? ? Hxl _]; subst.
      rewrite crg_run_app.
      change (CRG.run (CRG.run st l) [x])
        with (CRG.step (CRG.run st l) (fst x) (snd x)).
      rewrite crg_step_ready.
      rewrite (crg_running_not_reset _ (fst x) (crg_run_running l st Hrun Hl) Hxl).
      destruct (CRG.DEN (snd x)) eqn:Hden; [discriminate |].
      destruct (CRG.DRDY (fst x)) eqn:Hdone.
      * intros _. exists l, x, []. repeat split; assumption || constructor.
      * intros Hprev. destruct (IH Hl Hprev) as (pre & c & post & -> & Hc & Hn & Hpost).
        exists pre, c, (post ++ [x]). rewrite <- app_assoc.
        repeat split; try assumption.
        apply Forall_app. split; [exact Hpost |]. now constructor.
  - intros (pre & c & post & -> & Hc & Hn & Hpost).
    apply Forall_app in Hl. destruct Hl as [Hlpre Hlrest].
    inversion Hlrest as [| ? ? Hlc Hlpost]; subst.
    rewrite crg_run_app.
    change (CRG.run (CRG.run st pre) (c :: post))
      with (CRG.run (CRG.step (CRG.run st pre) (fst c) (snd c)) post).
    assert (Hrpre : CRG.running (CRG.run st pre)) by (now apply crg_run_running).
    apply crg_run_stays_ready; try assumption.
    + now apply crg_step_running.
    + rewrite crg_step_ready.
      rewrite (crg_running_not_reset _ (fst c) Hrpre Hlc). now rewrite Hn, Hc.
Qed.

Lemma crg_ready_means_completed_witness :
  CRG.running
    (CRG.run CRG.init [(CRG.mkMmcm true false 0, Idle);
                       (CRG.mkMmcm true false 0, Idle)]) /\
  CRG.mmcm_drdy_status
    (CRG.run CRG.init [(CRG.mkMmcm true false 0, Idle);
                       (CRG.mkMmcm true false 0, Idle)]) = 0 /\
  Forall CRG.locked
    ([(CRG.mkMmcm true false 0, Wr CRG.mmcm_read 1)]
     ++ (CRG.mkMmcm true true 7, Idle)
     :: [(CRG.mkMmcm true false 7, Rd CRG.mmcm_dat_r)]) /\
  CRG.mmcm_drdy_status
    (CRG.run
       (CRG.run CRG.init [(CRG.mkMmcm true false 0, Idle);
                          (CRG.mkMmcm true false 0, Idle)])
       ([(CRG.mkMmcm true false 0, Wr CRG.mmcm_read 1)]
        ++ (CRG.mkMmcm true true 7, Idle)
        :: [(CRG.mkMmcm true false 7, Rd CRG.mmcm_dat_r)])) = 1.
Proof.
  assert (Hl : Forall CRG.locked
                 ([(CRG.mkMmcm true false 0, Wr CRG.mmcm_read 1)]
                  ++ (CRG.mkMmcm true true 7, Idle)
                  :: [(CRG.mkMmcm true false 7, Rd CRG.mmcm_dat_r)]))
    by (repeat constructor).
  split; [reflexivity |]. split; [reflexivity |]. split; [exact Hl |].
  apply (proj2 (crg_ready_means_completed
                  (CRG.run CRG.init [(CRG.mkMmcm true false 0, Idle);
                                     (CRG.mkMmcm true false 0, Idle)])
                  _ eq_refl eq_refl Hl)).
  exists [(CRG.mkMmcm true false 0, Wr CRG.mmcm_read 1)],
         (CRG.mkMmcm true true 7, Idle),
         [(CRG.mkMmcm true false 7, Rd CRG.mmcm_dat_r)].
  repeat split. repeat constructor.
Defined.

(** X6.  In every state reached from power-on the ready flag is 0 or 1
    and the address and data presented to the MMCM fit its port: [DADDR]
    is below 2^7 and [DI] below 2^16, whatever values the bus wrote. *)
Theorem crg_port_values_in_range (cycles : list (CRG.mmcm * bus CRG.reg)) :
  let st := CRG.run CRG.init cycles in
  (CRG.mmcm_drdy_status st = 0 \/ CRG.mmcm_drdy_status st = 1) /\
  0 <= DRP.DADDR st < 2 ^ 7 /\
  0 <= DRP.DI st < 2 ^ 16.
Proof.
  cbv zeta. unfold DRP.DADDR, DRP.DI.
  change (2 ^ 7) with 128. change (2 ^ 16) with 65536.
  induction cycles as [| x l IH] using rev_ind.
  - cbn. unfold Csr.default_reset. lia.
  - rewrite crg_run_app.
    change (CRG.run (CRG.run CRG.init l) [x])
      with (CRG.step (CRG.run CRG.init l) (fst x) (snd x)).
    now apply crg_step_ranges.
Qed.

(** X21.  The [spi] clock does not disturb the DRP registers.  With
    the PLL locked, the registers of the [sys] domain after any
    interleaving of [sys] and [spi] clock edges are those after its
    [sys] edges alone. *)
Theorem crg_spi_edges_leave_sys_registers
  (st : CRG.state) (ticks : list CRG.tick) (m : CRG.mmcm) (r : CRG.reg) :
  Forall CRG.locked_tick ticks ->
  CRG.read (CRG.run_ticks st ticks) m r
  = CRG.read (CRG.run st (CRG.sys_edges ticks)) m r.
Proof.
  intros Hl.
  destruct (crg_ticks_sys_part ticks st st Hl eq_refl eq_refl eq_refl eq_refl)
    as (Hr & Ha & Hd & _).
  destruct r; cbn [CRG.read]; congruence.
Qed.

Lemma crg_spi_edges_leave_sys_registers_witness :
  Forall CRG.locked_tick
    [CRG.SpiEdge (CRG.mkMmcm true false 0);
     CRG.SysEdge (CRG.mkMmcm true false 0) Idle;
     CRG.SysEdge (CRG.mkMmcm true false 0) Idle;
     CRG.SpiEdge (CRG.mkMmcm true false 0);
     CRG.SysEdge (CRG.mkMmcm true false 0) (Wr CRG.mmcm_adr 0x28);
     CRG.SpiEdge (CRG.mkMmcm true false 0)] /\
  CRG.read
    (CRG.run_ticks CRG.init
       [CRG.SpiEdge (CRG.mkMmcm true false 0);
        CRG.SysEdge (CRG.mkMmcm true false 0) Idle;
        CRG.SysEdge (CRG.mkMmcm true false 0) Idle;
        CRG.SpiEdge (CRG.mkMmcm true false 0);
        CRG.SysEdge (CRG.mkMmcm true false 0) (Wr CRG.mmcm_adr 0x28);
        CRG.SpiEdge (CRG.mkMmcm true false 0)])
    (CRG.mkMmcm true false 0) CRG.mmcm_adr
  = CRG.read
      (CRG.run CRG.init
         (CRG.sys_edges
            [CRG.SpiEdge (CRG.mkMmcm true false 0);
             CRG.SysEdge (CRG.mkMmcm true false 0) Idle;
             CRG.SysEdge (CRG.mkMmcm true false 0) Idle;
             CRG.SpiEdge (CRG.mkMmcm true false 0);
             CRG.SysEdge (CRG.mkMmcm true false 0) (Wr CRG.mmcm_adr 0x28);
             CRG.SpiEdge (CRG.mkMmcm true false 0)]))
      (CRG.mkMmcm true false 0) CRG.mmcm_adr.
Proof.
  assert (Hl : Forall CRG.locked_tick
    [CRG.SpiEdge (CRG.mkMmcm true false 0);
     CRG.SysEdge (CRG.mkMmcm true false 0) Idle;
     CRG.SysEdge (CRG.mkMmcm true false 0) Idle;
     CRG.SpiEdge (CRG.mkMmcm true false 0);
     CRG.SysEdge (CRG.mkMmcm true false 0) (Wr CRG.mmcm_adr 0x28);
     CRG.SpiEdge (CRG.mkMmcm true false 0)])
    by (repeat constructor).
  split; [exact Hl |].
  exact (crg_spi_edges_leave_sys_registers CRG.init _
           (CRG.mkMmcm true false 0) CRG.mmcm_adr Hl).
Defined.

Section BtPowerMore.
Import BtPower.

Lemma power_step_range (st : state) (op : bus reg) :
  0 <= power_storage st < 256 -> 0 <= power_storage (step st op) < 256.
Proof.
  intros H. destruct op as [| r | r v]; try exact H.
  destruct r. cbn. unfold Csr.storage_write, Signal.trunc.
  change (2 ^ 8) with 256. apply Z.mod_pos_bound. lia.
Qed.

Lemma power_run_range (ops : list (bus reg)) :
  forall st, 0 <= power_storage st < 256 -> 0 <= power_storage (run st ops) < 256.
Proof.
  induction ops as [| op ops IH]; intros st H; [exact H |].
  cbn. apply IH. now apply power_step_range.
Qed.

Lemma power_fields_partition (s : Z) :
  0 <= s < 256 ->
  s = field (mkState s) f_audio
      + 2 * field (mkState s) f_self
      + 4 * field (mkState s) f_ec_snoop
      + 8 * field (mkState s) f_state
      + 32 * field (mkState s) f_noisebias
      + 64 * field (mkState s) f_noise.
Proof.
  intros Hs.
  assert (Hall : forallb
            (fun k =>
               let st := mkState (Z.of_nat k) in
               Z.of_nat k =? field st f_audio + 2 * field st f_self
                             + 4 * field st f_ec_snoop + 8 * field st f_state
                             + 32 * field st f_noisebias + 64 * field st f_noise)
            (seq 0 256) = true) by (vm_compute; reflexivity).
  rewrite forallb_forall in Hall.
  specialize (Hall (Z.to_nat s)).
  rewrite Z2Nat.id in Hall by lia.
  apply Z.eqb_eq. apply Hall. apply in_seq. lia.
Qed.

End BtPowerMore.

(** X8.  Which register bit drives which power pad, for every value the
    register can hold: [audio_on] is bit 0, [fpga_sys_on] bit 1,
    [allow_up5k_n] the complement of bit 2, [noisebias_on] bit 5 and
    [noise_on] the two bits 7:6; none of them depends on the reset
    signal. *)
Theorem power_pads_follow_register_bits
  (st : BtPower.state) (ResetSignal : bool) (i : Z) :
  0 <= i < 2 ->
  let p := BtPower.comb st ResetSignal in
  let s := BtPower.power_storage st in
  BtPower.audio_on p = Z.testbit s 0 /\
  BtPower.fpga_sys_on p = Z.testbit s 1 /\
  BtPower.allow_up5k_n p = negb (Z.testbit s 2) /\
  BtPower.noisebias_on p = Z.testbit s 5 /\
  Z.testbit (BtPower.noise_on p) i = Z.testbit s (6 + i) /\
  0 <= BtPower.noise_on p < 4.
Proof.
  intros Hi p s. unfold p, s.
  cbn [BtPower.comb BtPower.audio_on BtPower.fpga_sys_on BtPower.allow_up5k_n
       BtPower.noisebias_on BtPower.noise_on].
  change (BtPower.field st BtPower.f_audio)
    with (Signal.slice (BtPower.power_storage st) 0 1).
  change (BtPower.field st BtPower.f_self)
    with (Signal.slice (BtPower.power_storage st) 1 1).
  change (BtPower.field st BtPower.f_ec_snoop)
    with (Signal.slice (BtPower.power_storage st) 2 1).
  change (BtPower.field st BtPower.f_noisebias)
    with (Signal.slice (BtPower.power_storage st) 5 1).
  change (BtPower.field st BtPower.f_noise)
    with (Signal.slice (BtPower.power_storage st) 6 2).
  rewrite !slice_bit by lia.
  repeat (split; [reflexivity |]).
  unfold Signal.slice. rewrite Z.land_ones by lia.
  change (2 ^ 2) with 4. apply Z.mod_pos_bound. lia.
Qed.

Lemma power_pads_follow_register_bits_witness :
  0 <= 1 < 2 /\
  Z.testbit
    (BtPower.noise_on
       (BtPower.comb (BtPower.step BtPower.init (Wr BtPower.power 0x8A)) true)) 1
  = Z.testbit
      (BtPower.power_storage (BtPower.step BtPower.init (Wr BtPower.power 0x8A)))
      (6 + 1).
Proof.
  assert (H : 0 <= 1 < 2) by lia.
  split; [exact H |].
  exact (proj1 (proj2 (proj2 (proj2 (proj2
    (power_pads_follow_register_bits
       (BtPower.step BtPower.init (Wr BtPower.power 0x8A)) true 1 H)))))).
Defined.

(** X9.  The six fields tile the Power register: in every state reached
    from power-on, by whatever writes, the register holds a byte (a
    written value keeps its low 8 bits) and that byte is
    audio + 2 self + 4 ec_snoop + 8 state + 32 noisebias + 64 noise, so
    no bit belongs to two fields and none to no field. *)
Theorem power_fields_tile_register (ops : list (bus BtPower.reg)) (v : Z) :
  let st := BtPower.run BtPower.init ops in
  0 <= BtPower.read st BtPower.power < 256 /\
  BtPower.read st BtPower.power
  = BtPower.field st BtPower.f_audio
    + 2 * BtPower.field st BtPower.f_self
    + 4 * BtPower.field st BtPower.f_ec_snoop
    + 8 * BtPower.field st BtPower.f_state
    + 32 * BtPower.field st BtPower.f_noisebias
    + 64 * BtPower.field st BtPower.f_noise /\
  BtPower.read (BtPower.step st (Wr BtPower.power v)) BtPower.power = v mod 256.
Proof.
  intros st.
  assert (H : 0 <= BtPower.power_storage st < 256).
  { apply power_run_range.
    change (BtPower.power_storage BtPower.init) with 10. lia. }
  split; [exact H |]. split; [| reflexivity].
  destruct st as [s]. cbn [BtPower.read BtPower.power_storage] in *.
  now apply power_fields_partition.
Qed.

Section BtGpioMore.
Import BtGpio.

Lemma btgpio_run_app (st : state) (xs ys : list cycle) :
  run st (xs ++ ys) = run (run st xs) ys.
Proof. unfold run. apply fold_left_app. Qed.

Lemma btgpio_step_keeps_drive (st : state) (c : cycle) :
  BtGpioPads.keeps_drive c -> drive_storage (step st c) = drive_storage st.
Proof.
  destruct c as [g o]. unfold BtGpioPads.keeps_drive.
  cbn [step drive_storage op].
  destruct o as [| r | r v]; try reflexivity.
  destruct r; intros H; try contradiction; reflexivity.
Qed.

Lemma btgpio_run_keeps_drive (cycles : list cycle) :
  forall st, Forall BtGpioPads.keeps_drive cycles ->
    drive_storage (run st cycles) = drive_storage st.
Proof.
  induction cycles as [| c cycles IH]; intros st H; [reflexivity |].
  inversion H as [| ? ? Hc Hcs]; subst.
  change (run st (c :: cycles)) with (run (step st c) cycles).
  rewrite IH by assumption. now apply btgpio_step_keeps_drive.
Qed.

Lemma btgpio_step_keeps_output (st : state) (c : cycle) :
  BtGpioPads.keeps_output c -> output_storage (step st c) = output_storage st.
Proof.
  destruct c as [g o]. unfold BtGpioPads.keeps_output.
  cbn [step output_storage op].
  destruct o as [| r | r v]; try reflexivity.
  destruct r; intros H; try contradiction; reflexivity.
Qed.

Lemma btgpio_run_keeps_output (cycles : list cycle) :
  forall st, Forall BtGpioPads.keeps_output cycles ->
    output_storage (run st cycles) = output_storage st.
Proof.
  induction cycles as [| c cycles IH]; intros st H; [reflexivity |].
  inversion H as [| ? ? Hc Hcs]; subst.
  change (run st (c :: cycles)) with (run (step st c) cycles).
  rewrite IH by assumption. now apply btgpio_step_keeps_output.
Qed.

(** Bit [g] of a word written to a register of [nbits] bits. *)
Lemma nbits_write_bit (v : Z) (g : nat) :
  Signal.bit (Csr.storage_write (Z.of_nat nbits) v) (Z.of_nat g)
  = (g <? 3)%nat && Z.testbit v (Z.of_nat g).
Proof.
  unfold Signal.bit, Csr.storage_write, Signal.trunc, nbits.
  destruct (Nat.ltb_spec g 3) as [Hlt | Hge].
  - cbn [andb]. apply Z.mod_pow2_bits_low. lia.
  - cbn [andb]. apply Z.mod_pow2_bits_high. lia.
Qed.

Lemma btgpio_gpioint_step (st : state) (c : cycle) (i : nat) :
  (i < 3)%nat ->
  BtGpioPads.gpioint (step st c) i
  = EventSourcePulse.step (BtGpioPads.gpioint st i) (trigger st i) (clear i (op c)).
Proof.
  intros Hi. destruct i as [| [| [| i]]]; try reflexivity. lia.
Qed.

(** The trigger of source [i], two edges after a word was sampled. *)
Lemma btgpio_trigger_two_edges (pre : list cycle) (a b : cycle) (i : nat) :
  trigger (run init (pre ++ [a; b])) i = Z.testbit (gpio_in a) (Z.of_nat i).
Proof.
  unfold trigger.
  rewrite (proj2 (btgpio_run_undriven (pre ++ [a; b]) init)).
  unfold input_status. rewrite btgpio_input_sync, map_app.
  cbn [map].
  rewrite (multireg_two_edges Csr.default_reset (input_sync init)
             (map gpio_in pre) (gpio_in a) (gpio_in b) eq_refl).
  cbn [init intpol_status]. unfold Signal.bit, Csr.default_reset.
  rewrite Z.bits_0. apply xorb_false_r.
Qed.

End BtGpioMore.

(** X10.  From power-on and until software writes the [drive]
    register, the block drives none of the GPIO pads, whatever is written
    to [output] or anywhere else. *)
Theorem gpio_pads_released_until_driven
  (cycles : list BtGpio.cycle) (g : nat) :
  Forall BtGpioPads.keeps_drive cycles ->
  BtGpioPads.pad (BtGpio.run BtGpio.init cycles) g = None.
Proof.
  intros H. unfold BtGpioPads.pad, BtGpioPads.ts_oe, BtGpio.gpio_oe.
  rewrite (btgpio_run_keeps_drive cycles _ H).
  cbn [BtGpio.init BtGpio.drive_storage]. unfold Signal.bit, Csr.default_reset.
  now rewrite Z.bits_0.
Qed.

Lemma gpio_pads_released_until_driven_witness :
  Forall BtGpioPads.keeps_drive
    [BtGpio.mkCycle 5 (Wr BtGpio.output 7); BtGpio.mkCycle 2 (Rd BtGpio.input)] /\
  BtGpioPads.pad
    (BtGpio.run BtGpio.init
       [BtGpio.mkCycle 5 (Wr BtGpio.output 7); BtGpio.mkCycle 2 (Rd BtGpio.input)])
    1 = None.
Proof.
  assert (H : Forall BtGpioPads.keeps_drive
                [BtGpio.mkCycle 5 (Wr BtGpio.output 7);
                 BtGpio.mkCycle 2 (Rd BtGpio.input)])
    by (repeat constructor).
  split; [exact H |].
  exact (gpio_pads_released_until_driven _ 1 H).
Defined.

(** X11.  After [drive] was written with [v] and [output] with [w], and
    until either is written again, pad [g] carries bit [g] of [w] if
    [g] is one of the three pins and bit [g] of [v] is set, and is left
    undriven otherwise: bits of [v] and [w] beyond the three pins are
    dropped. *)
Theorem gpio_pad_follows_drive_and_output
  (st : BtGpio.state) (v w p1 p2 : Z) (cycles : list BtGpio.cycle) (g : nat) :
  Forall BtGpioPads.keeps_drive cycles ->
  Forall BtGpioPads.keeps_output cycles ->
  let st' :=
    BtGpio.run
      (BtGpio.step (BtGpio.step st (BtGpio.mkCycle p1 (Wr BtGpio.drive v)))
                   (BtGpio.mkCycle p2 (Wr BtGpio.output w)))
      cycles in
  BtGpioPads.pad st' g
  = if (g <? 3)%nat && Z.testbit v (Z.of_nat g)
    then Some (Z.testbit w (Z.of_nat g))
    else None.
Proof.
  intros Hd Ho st'.
  unfold BtGpioPads.pad, BtGpioPads.ts_oe, BtGpioPads.ts_o,
    BtGpio.gpio_oe, BtGpio.gpio_out, st'.
  rewrite (btgpio_run_keeps_drive cycles _ Hd).
  rewrite (btgpio_run_keeps_output cycles _ Ho).
  cbn [BtGpio.step BtGpio.drive_storage BtGpio.output_storage BtGpio.op].
  rewrite !nbits_write_bit.
  destruct (g <? 3)%nat; [| reflexivity].
  cbn [andb]. reflexivity.
Qed.

Lemma gpio_pad_follows_drive_and_output_witness :
  Forall BtGpioPads.keeps_drive [BtGpio.mkCycle 0 (Rd BtGpio.drive)] /\
  Forall BtGpioPads.keeps_output [BtGpio.mkCycle 0 (Rd BtGpio.drive)] /\
  BtGpioPads.pad
    (BtGpio.run
       (BtGpio.step
          (BtGpio.step BtGpio.init (BtGpio.mkCycle 0 (Wr BtGpio.drive 0xFE)))
          (BtGpio.mkCycle 0 (Wr BtGpio.output 0x0A)))
       [BtGpio.mkCycle 0 (Rd BtGpio.drive)])
    1
  = if (1 <? 3)%nat && Z.testbit 0xFE (Z.of_nat 1)
    then Some (Z.testbit 0x0A (Z.of_nat 1))
    else None.
Proof.
  assert (H : Forall BtGpioPads.keeps_drive [BtGpio.mkCycle 0 (Rd BtGpio.drive)])
    by (repeat constructor).
  assert (H' : Forall BtGpioPads.keeps_output [BtGpio.mkCycle 0 (Rd BtGpio.drive)])
    by (repeat constructor).
  split; [exact H |]. split; [exact H' |].
  exact (gpio_pad_follows_drive_and_output BtGpio.init 0xFE 0x0A 0 0 _ 1 H H').
Defined.

(** X12.  A rising GPIO pin raises its interrupt source.  From
    power-on, if pin [i] is sampled low at one clock edge and high at
    the next, then two edges later the pending flag of [gpioint<i>] is
    set, whatever the other pins do and whatever the bus does in those
    cycles. *)
Theorem gpio_pin_rise_sets_pending
  (pre : list BtGpio.cycle) (c1 c2 c3 c4 : BtGpio.cycle) (i : nat) :
  (i < 3)%nat ->
  Z.testbit (BtGpio.gpio_in c1) (Z.of_nat i) = false ->
  Z.testbit (BtGpio.gpio_in c2) (Z.of_nat i) = true ->
  EventSourcePulse.pending
    (BtGpioPads.gpioint (BtGpio.run BtGpio.init (pre ++ [c1; c2; c3; c4])) i)
  = true.
Proof.
  intros Hi Hlow Hhigh.
  replace (pre ++ [c1; c2; c3; c4]) with (((pre ++ [c1; c2]) ++ [c3]) ++ [c4])
    by (now rewrite <- !app_assoc).
  rewrite (btgpio_run_app _ ((pre ++ [c1; c2]) ++ [c3]) [c4]).
  change (BtGpio.run ?s [c4]) with (BtGpio.step s c4).
  rewrite btgpio_gpioint_step by exact Hi.
  replace ((pre ++ [c1; c2]) ++ [c3]) with ((pre ++ [c1]) ++ [c2; c3]) at 2
    by (now rewrite <- !app_assoc).
  rewrite btgpio_trigger_two_edges, Hhigh.
  rewrite (btgpio_run_app _ (pre ++ [c1; c2]) [c3]).
  change (BtGpio.run ?s [c3]) with (BtGpio.step s c3).
  rewrite btgpio_gpioint_step by exact Hi.
  rewrite btgpio_trigger_two_edges, Hlow.
  reflexivity.
Qed.

Lemma gpio_pin_rise_sets_pending_witness :
  (2 < 3)%nat /\
  Z.testbit (BtGpio.gpio_in (BtGpio.mkCycle 3 Idle)) (Z.of_nat 2) = false /\
  Z.testbit (BtGpio.gpio_in (BtGpio.mkCycle 4 Idle)) (Z.of_nat 2) = true /\
  EventSourcePulse.pending
    (BtGpioPads.gpioint
       (BtGpio.run BtGpio.init
          ([BtGpio.mkCycle 0 Idle]
           ++ [BtGpio.mkCycle 3 Idle; BtGpio.mkCycle 4 Idle;
               BtGpio.mkCycle 0 (Wr BtGpio.ev_pending 7);
               BtGpio.mkCycle 0 (Wr BtGpio.ev_pending 7)]))
       2) = true.
Proof.
  assert (H : (2 < 3)%nat) by lia.
  split; [exact H |]. split; [reflexivity |]. split; [reflexivity |].
  exact (gpio_pin_rise_sets_pending [BtGpio.mkCycle 0 Idle]
           (BtGpio.mkCycle 3 Idle) (BtGpio.mkCycle 4 Idle)
           (BtGpio.mkCycle 0 (Wr BtGpio.ev_pending 7))
           (BtGpio.mkCycle 0 (Wr BtGpio.ev_pending 7)) 2 H eq_refl eq_refl).
Defined.

Section BtEventsMore.
Import BtEvents.

Lemma btevents_run_app (st : state) (xs ys : list cycle) :
  run st (xs ++ ys) = run (run st xs) ys.
Proof. unfold run. apply fold_left_app. Qed.

Lemma btevents_com_two_edges (pre : list cycle) (a b : cycle) :
  com_int_trigger (run init (pre ++ [a; b])) = com a.
Proof.
  unfold com_int_trigger, com_int.
  rewrite btevents_com_sync, map_app.
  now apply multireg_two_edges.
Qed.

Lemma btevents_rtc_two_edges (pre : list cycle) (a b : cycle) :
  rtc_int_trigger (run init (pre ++ [a; b])) = rtc a.
Proof.
  unfold rtc_int_trigger, rtc_int.
  rewrite btevents_rtc_sync, map_app.
  now apply multireg_two_edges.
Qed.

Lemma btevents_step_keeps_enable (st : state) (c : cycle) :
  BtEventsIrq.keeps_enable c -> ev_enable_storage (step st c) = ev_enable_storage st.
Proof.
  destruct c as [x y o]. unfold BtEventsIrq.keeps_enable.
  cbn [step ev_enable_storage op].
  destruct o as [| r | r v]; try reflexivity.
  destruct r; intros H; try contradiction; reflexivity.
Qed.

Lemma btevents_run_keeps_enable (cycles : list cycle) :
  forall st, Forall BtEventsIrq.keeps_enable cycles ->
    ev_enable_storage (run st cycles) = ev_enable_storage st.
Proof.
  induction cycles as [| c cycles IH]; intros st H; [reflexivity |].
  inversion H as [| ? ? Hc Hcs]; subst.
  change (run st (c :: cycles)) with (run (step st c) cycles).
  rewrite IH by assumption. now apply btevents_step_keeps_enable.
Qed.

Lemma irq_of_enabled_bit (st : state) (k : Z) :
  Z.testbit (pending_bits st) k = true ->
  Z.testbit (ev_enable_storage st) k = true ->
  irq st = true.
Proof.
  intros Hp He. unfold irq.
  destruct (Z.eqb_spec (Z.land (pending_bits st) (ev_enable_storage st)) 0)
    as [H0 | Hne]; [| reflexivity].
  assert (Hbit : Z.testbit (Z.land (pending_bits st) (ev_enable_storage st)) k = true)
    by (now rewrite Z.land_spec, Hp, He).
  rewrite H0, Z.bits_0 in Hbit. discriminate Hbit.
Qed.

End BtEventsMore.

(** X13.  A rising [com_irq] pin raises the COM interrupt.  From
    power-on, if the pin is sampled low at one clock edge and high at
    the next, then two edges later the pending flag of [com_int] is set,
    whatever the bus does meanwhile, and the interrupt line of the block
    is up if bit 0 of the enable register is set. *)
Theorem com_irq_rise_sets_pending
  (pre : list BtEvents.cycle) (c1 c2 c3 c4 : BtEvents.cycle) :
  BtEvents.com c1 = false ->
  BtEvents.com c2 = true ->
  let st := BtEvents.run BtEvents.init (pre ++ [c1; c2; c3; c4]) in
  EventSourcePulse.pending (BtEvents.ev_com_int st) = true /\
  (Z.testbit (BtEvents.read st BtEvents.ev_enable) 0 = true ->
   BtEvents.irq st = true).
Proof.
  intros Hlow Hhigh st.
  assert (Hp : EventSourcePulse.pending (BtEvents.ev_com_int st) = true).
  { unfold st.
    replace (pre ++ [c1; c2; c3; c4]) with (((pre ++ [c1; c2]) ++ [c3]) ++ [c4])
      by (now rewrite <- !app_assoc).
    rewrite (btevents_run_app _ ((pre ++ [c1; c2]) ++ [c3]) [c4]).
    change (BtEvents.run ?s [c4]) with (BtEvents.step s c4).
    cbn [BtEvents.step BtEvents.ev_com_int].
    replace ((pre ++ [c1; c2]) ++ [c3]) with ((pre ++ [c1]) ++ [c2; c3]) at 2
      by (now rewrite <- !app_assoc).
    rewrite btevents_com_two_edges, Hhigh.
    rewrite (btevents_run_app _ (pre ++ [c1; c2]) [c3]).
    change (BtEvents.run ?s [c3]) with (BtEvents.step s c3).
    cbn [BtEvents.step BtEvents.ev_com_int].
    rewrite btevents_com_two_edges, Hlow.
    reflexivity. }
  split; [exact Hp |].
  intros He. apply (irq_of_enabled_bit st 0); [| exact He].
  unfold BtEvents.pending_bits. rewrite Z.lor_spec, Hp. reflexivity.
Qed.

Lemma com_irq_rise_sets_pending_witness :
  BtEvents.com (BtEvents.mkCycle false true Idle) = false /\
  BtEvents.com (BtEvents.mkCycle true true Idle) = true /\
  EventSourcePulse.pending
    (BtEvents.ev_com_int
       (BtEvents.run BtEvents.init
          ([BtEvents.mkCycle false true (Wr BtEvents.ev_enable 3)]
           ++ [BtEvents.mkCycle false true Idle; BtEvents.mkCycle true true Idle;
               BtEvents.mkCycle false true Idle;
               BtEvents.mkCycle false true (Rd BtEvents.ev_pending)]))) = true.
Proof.
  split; [reflexivity |]. split; [reflexivity |].
  exact (proj1 (com_irq_rise_sets_pending
                  [BtEvents.mkCycle false true (Wr BtEvents.ev_enable 3)]
                  (BtEvents.mkCycle false true Idle)
                  (BtEvents.mkCycle true true Idle)
                  (BtEvents.mkCycle false true Idle)
                  (BtEvents.mkCycle false true (Rd BtEvents.ev_pending))
                  eq_refl eq_refl)).
Defined.

(** X14.  A falling [rtc_irq] pin raises the RTC interrupt.  From
    power-on, if the pin is sampled high at one clock edge and low at
    the next, then two edges later the pending flag of [rtc_int] is set,
    whatever the bus does meanwhile, and the interrupt line of the block
    is up if bit 1 of the enable register is set. *)
Theorem rtc_irq_fall_sets_pending
  (pre : list BtEvents.cycle) (c1 c2 c3 c4 : BtEvents.cycle) :
  BtEvents.rtc c1 = true ->
  BtEvents.rtc c2 = false ->
  let st := BtEvents.run BtEvents.init (pre ++ [c1; c2; c3; c4]) in
  EventSourceProcess.pending (BtEvents.ev_rtc_int st) = true /\
  (Z.testbit (BtEvents.read st BtEvents.ev_enable) 1 = true ->
   BtEvents.irq st = true).
Proof.
  intros Hhigh Hlow st.
  assert (Hp : EventSourceProcess.pending (BtEvents.ev_rtc_int st) = true).
  { unfold st.
    replace (pre ++ [c1; c2; c3; c4]) with (((pre ++ [c1; c2]) ++ [c3]) ++ [c4])
      by (now rewrite <- !app_assoc).
    rewrite (btevents_run_app _ ((pre ++ [c1; c2]) ++ [c3]) [c4]).
    change (BtEvents.run ?s [c4]) with (BtEvents.step s c4).
    cbn [BtEvents.step BtEvents.ev_rtc_int].
    replace ((pre ++ [c1; c2]) ++ [c3]) with ((pre ++ [c1]) ++ [c2; c3]) at 2
      by (now rewrite <- !app_assoc).
    rewrite btevents_rtc_two_edges, Hlow.
    rewrite (btevents_run_app _ (pre ++ [c1; c2]) [c3]).
    change (BtEvents.run ?s [c3]) with (BtEvents.step s c3).
    cbn [BtEvents.step BtEvents.ev_rtc_int].
    rewrite btevents_rtc_two_edges, Hhigh.
    reflexivity. }
  split; [exact Hp |].
  intros He. apply (irq_of_enabled_bit st 1); [| exact He].
  unfold BtEvents.pending_bits.
  rewrite Z.lor_spec, Z.shiftl_spec by lia. rewrite Hp.
  apply orb_true_r.
Qed.

Lemma rtc_irq_fall_sets_pending_witness :
  BtEvents.rtc (BtEvents.mkCycle false true Idle) = true /\
  BtEvents.rtc (BtEvents.mkCycle false false Idle) = false /\
  EventSourceProcess.pending
    (BtEvents.ev_rtc_int
       (BtEvents.run BtEvents.init
          ([] ++ [BtEvents.mkCycle false true Idle; BtEvents.mkCycle false false Idle;
                  BtEvents.mkCycle false false Idle;
                  BtEvents.mkCycle false false (Wr BtEvents.ev_pending 2)]))) = true.
Proof.
  split; [reflexivity |]. split; [reflexivity |].
  exact (proj1 (rtc_irq_fall_sets_pending []
                  (BtEvents.mkCycle false true Idle)
                  (BtEvents.mkCycle false false Idle)
                  (BtEvents.mkCycle false false Idle)
                  (BtEvents.mkCycle false false (Wr BtEvents.ev_pending 2))
                  eq_refl eq_refl)).
Defined.

(** X15.  The interrupt line of [BtEvents] is masked at power-on: until
    software writes the enable register, the line stays down whatever
    the [com_irq] and [rtc_irq] pins do and however many events are
    pending. *)
Theorem btevents_irq_masked_until_enabled (cycles : list BtEvents.cycle) :
  Forall BtEventsIrq.keeps_enable cycles ->
  BtEvents.irq (BtEvents.run BtEvents.init cycles) = false.
Proof.
  intros H. unfold BtEvents.irq.
  rewrite (btevents_run_keeps_enable cycles _ H).
  cbn [BtEvents.init BtEvents.ev_enable_storage]. unfold Csr.default_reset.
  now rewrite Z.land_0_r.
Qed.

Lemma btevents_irq_masked_until_enabled_witness :
  Forall BtEventsIrq.keeps_enable
    [BtEvents.mkCycle false false Idle; BtEvents.mkCycle true false Idle;
     BtEvents.mkCycle true false Idle; BtEvents.mkCycle true false Idle] /\
  BtEvents.irq
    (BtEvents.run BtEvents.init
       [BtEvents.mkCycle false false Idle; BtEvents.mkCycle true false Idle;
        BtEvents.mkCycle true false Idle; BtEvents.mkCycle true false Idle]) = false.
Proof.
  assert (H : Forall BtEventsIrq.keeps_enable
                [BtEvents.mkCycle false false Idle; BtEvents.mkCycle true false Idle;
                 BtEvents.mkCycle true false Idle; BtEvents.mkCycle true false Idle])
    by (repeat constructor).
  split; [exact H |].
  exact (btevents_irq_masked_until_enabled _ H).
Defined.

Section BaseSoCMore.
Import BaseSoC.



End BaseSoCMore.

(** X16.  Loss of PLL lock isolates the external memory.  In the SoC
    the reset that gates [pwr_s0] is the reset of the [sys] domain made
    by the CRG, so in every state, whatever the Power register holds,
    [pwr_s0] is 0 while the PLL is not locked. *)
Theorem soc_unlocked_pll_isolates_sram
  (st : BaseSoC.state) (m : CRG.mmcm) :
  CRG.LOCKED m = false ->
  BaseSoC.ResetSignal st m = true /\
  BtPower.pwr_s0 (BaseSoC.power_pads st m) = false.
Proof.
  intros Hm.
  assert (Hr : BaseSoC.ResetSignal st m = true).
  { unfold BaseSoC.ResetSignal, CRG.cd_sys_rst, AsyncResetSynchronizer.cd_rst.
    now rewrite (async_reset_unlocked m Hm). }
  split; [exact Hr |].
  unfold BaseSoC.power_pads. rewrite Hr.
  cbn [BtPower.comb BtPower.pwr_s0 negb]. apply andb_false_r.
Qed.

Lemma soc_unlocked_pll_isolates_sram_witness :
  CRG.LOCKED (CRG.mkMmcm false false 0) = false /\
  BtPower.pwr_s0
    (BaseSoC.power_pads
       (BaseSoC.step BaseSoC.init (CRG.mkMmcm true false 0)
          (BaseSoC.ToPower (Wr BtPower.power 0xFF)))
       (CRG.mkMmcm false false 0)) = false.
Proof.
  split; [reflexivity |].
  exact (proj2 (soc_unlocked_pll_isolates_sram
                  (BaseSoC.step BaseSoC.init (CRG.mkMmcm true false 0)
                     (BaseSoC.ToPower (Wr BtPower.power 0xFF)))
                  (CRG.mkMmcm false false 0) eq_refl)).
Defined.



Section MainFacts.
Import String.
Local Open Scope string_scope.

(** X19.  [main] builds only under [PYTHONHASHSEED=1].  If the
    variable is not set the lookup raises [KeyError]; if it is set to
    anything but "1" the process exits before anything is built; and
    when [main] does build, the variable is "1", software is never
    compiled, the gateware is compiled unless [--document-only] was
    given, and the ports added to the pin table are those chosen by
    [--uart-swap]. *)
Theorem main_builds_only_with_hashseed
  (environ : string -> option string) (a : Main.args) (seed : string) :
  (environ "PYTHONHASHSEED" = None ->
   Main.main environ a = Main.KeyError "PYTHONHASHSEED") /\
  (environ "PYTHONHASHSEED" = Some seed -> seed <> "1" ->
   exists message, Main.main environ a = Main.Exit message) /\
  (forall gateware software io,
     Main.main environ a = Main.Build gateware software io ->
     environ "PYTHONHASHSEED" = Some "1" /\
     gateware = negb (Main.document_only a) /\
     software = false /\
     io = Main.io_added a).
Proof.
  unfold Main.main. split; [| split].
  - intros ->. reflexivity.
  - intros -> Hne. apply eqb_neq in Hne. rewrite Hne. cbn [negb].
    eexists. reflexivity.
  - intros gateware software io.
    destruct (environ "PYTHONHASHSEED") as [s |]; [| discriminate].
    destruct (eqb_spec s "1") as [-> | Hne]; cbn [negb]; [| discriminate].
    intros H. injection H as <- <- <-.
    destruct (Main.document_only a); repeat split.
Qed.

(** X20.  [--uart-swap] exchanges the two UART ports and nothing else.
    With or without it the pin table gains exactly one "debug" and one
    "serial" port, on different pins; the port that is "debug" without
    the option (V6/V7, LVCMOS18, wired to the Pi) is "serial" with it,
    and the port that is "serial" without it (B18/D15, LVCMOS33) is
    "debug" with it. *)
Theorem uart_swap_exchanges_ports (d : bool) :
  let plain := Main.io_added (Main.mkArgs d false) in
  let swapped := Main.io_added (Main.mkArgs d true) in
  Main.request plain "debug" = Some (Main.mkPort "debug" "V6" "V7" "LVCMOS18") /\
  Main.request plain "serial" = Some (Main.mkPort "serial" "B18" "D15" "LVCMOS33") /\
  Main.request swapped "serial" = Some (Main.mkPort "serial" "V6" "V7" "LVCMOS18") /\
  Main.request swapped "debug" = Some (Main.mkPort "debug" "B18" "D15" "LVCMOS33") /\
  List.length plain = 2%nat /\ List.length swapped = 2%nat /\
  map Main.name swapped = rev (map Main.name plain).
Proof. repeat split. Qed.

Lemma main_builds_only_with_hashseed_witness :
  (fun _ : string => Some "0") "PYTHONHASHSEED" = Some "0" /\
  "0" <> "1" /\
  exists message,
    Main.main (fun _ => Some "0") (Main.mkArgs false false) = Main.Exit message.
Proof.
  assert (H : "0" <> "1") by discriminate.
  split; [reflexivity |]. split; [exact H |].
  exact (proj1 (proj2 (main_builds_only_with_hashseed
                         (fun _ => Some "0") (Main.mkArgs false false) "0"))
           eq_refl H).
Defined.

End MainFacts.
